(** * Hourly climatology of the Beer's-law notebook

    A shallow embedding of [calcHourlyMean] from
    [wrrPaper-fig01-BeersLaw.ipynb] and of the pandas operations it calls
    (label slicing of a frame by a [DatetimeIndex], [groupby] on the hour of
    the index, [mean]), followed by the properties of the notebook's
    specification that can be stated over it.

    Conventions.
    - A [pd.Timestamp] is the integer pandas stores: nanoseconds since
      1970-01-01 00:00:00.
    - The column ['shortwave radiation estimate'] holds IEEE binary64 numbers,
      modelled by Rocq's primitive floats, so sums and quotients round exactly
      as they do in the notebook.
    - Python exceptions are values of [exn]; a computation that may read the
      notebook's module-level names is a function from [Globals] to a result
      and the globals after it. *)

From Stdlib Require Import String Ascii ZArith List Bool Lia.
From Stdlib Require Import Permutation Sorting.Sorted.
From Stdlib Require Import Floats.PrimFloat Numbers.Cyclic.Int63.Uint63.
Import ListNotations.

Local Open Scope Z_scope.

(* ================================================================= *)
(** ** Timestamps *)

Definition Timestamp := Z.

Definition ns_per_second : Z := 1000000000.
Definition ns_per_hour : Z := 3600 * ns_per_second.

(** [Timestamp.hour] / [DatetimeIndex.hour]: the clock hour, 0..23. *)
Definition hour (t : Timestamp) : Z := (t / ns_per_hour) mod 24.

(** Days between 1970-01-01 and a date of the proleptic Gregorian calendar. *)
Definition days_from_civil (y m d : Z) : Z :=
  let y' := if m <=? 2 then y - 1 else y in
  let era := y' / 400 in
  let yoe := y' - era * 400 in
  let mp := (m + 9) mod 12 in
  let doy := (153 * mp + 2) / 5 + d - 1 in
  let doe := yoe * 365 + yoe / 4 - yoe / 100 + doy in
  era * 146097 + doe - 719468.

(** The timestamp of a calendar date and a clock time. *)
Definition mk_Timestamp (y m d hh mm ss : Z) : Timestamp :=
  (((days_from_civil y m d * 24 + hh) * 60 + mm) * 60 + ss) * ns_per_second.

Definition is_leap (y : Z) : bool :=
  ((y mod 4 =? 0) && negb (y mod 100 =? 0)) || (y mod 400 =? 0).

Definition days_in_month (y m : Z) : Z :=
  if m =? 2 then (if is_leap y then 29 else 28)
  else if (m =? 4) || (m =? 6) || (m =? 9) || (m =? 11) then 30
  else 31.

Definition digit (c : ascii) : option Z :=
  let n := Z.of_nat (nat_of_ascii c) in
  if (48 <=? n) && (n <=? 57) then Some (n - 48) else None.

Fixpoint digits (cs : list ascii) (acc : Z) : option Z :=
  match cs with
  | [] => Some acc
  | c :: cs' =>
      match digit c with
      | Some n => digits cs' (10 * acc + n)
      | None => None
      end
  end.

Definition dash : ascii := ascii_of_nat 45.

(** [pd.Timestamp] on the date strings the notebook passes, ['YYYY-MM-DD']:
    midnight of that day.  pandas accepts many more spellings; this is the
    instance of the constructor used for the notebook's own calls, and the
    development below is stated for an arbitrary constructor. *)
Definition Timestamp_of_date (s : string) : option Timestamp :=
  match list_ascii_of_string s with
  | [y1; y2; y3; y4; s1; m1; m2; s2; d1; d2] =>
      if Ascii.eqb s1 dash && Ascii.eqb s2 dash then
        match digits [y1; y2; y3; y4] 0, digits [m1; m2] 0, digits [d1; d2] 0 with
        | Some y, Some m, Some d =>
            if (1678 <=? y) && (y <=? 2261) && (1 <=? m) && (m <=? 12)
               && (1 <=? d) && (d <=? days_in_month y m)
            then Some (mk_Timestamp y m d 0 0 0)
            else None
        | _, _, _ => None
        end
      else None
  | _ => None
  end.

(* ================================================================= *)
(** ** Frames *)

(** One row of [df]: its index label (['time']) and its value in the column
    ['shortwave radiation estimate']. *)
Record Row : Type := mkRow {
  row_time : Timestamp;
  row_srad : float
}.

Definition DataFrame := list Row.

Definition index (d : DataFrame) : list Timestamp := map row_time d.

(** The frame [groupby(...).mean()] returns: one row per group key, the keys
    ascending. *)
Definition HourlyFrame := list (Z * float).

(** [frame.loc[h]] on the result, [None] when the key is absent. *)
Fixpoint lookup (h : Z) (res : HourlyFrame) : option float :=
  match res with
  | [] => None
  | (k, v) :: res' => if k =? h then Some v else lookup h res'
  end.

(* ================================================================= *)
(** ** Exceptions and module-level state *)

Inductive exn : Type :=
| ValueError
| KeyError
| IndexError.

Inductive Result (A : Type) : Type :=
| Ok (a : A)
| Raise (e : exn).

Arguments Ok {A} a.
Arguments Raise {A} e.

(** The module-level names of the notebook at the time of a call. *)
Record Globals : Type := mkGlobals {
  dataFolder : string;
  dataFiles : list string;
  df : DataFrame
}.

Definition M (A : Type) : Type := Globals -> Result A * Globals.

Definition ret {A} (a : A) : M A := fun g => (Ok a, g).

Definition raise {A} (e : exn) : M A := fun g => (Raise e, g).

Definition bind {A B} (c : M A) (k : A -> M B) : M B :=
  fun g =>
    match c g with
    | (Ok a, g') => k a g'
    | (Raise e, g') => (Raise e, g')
    end.

Definition lift {A} (r : Result A) : M A := fun g => (r, g).

(** Reading the global name [df]. *)
Definition read_df : M DataFrame := fun g => (Ok (df g), g).

Notation "x <- c1 ;; c2" := (bind c1 (fun x => c2))
  (at level 61, c1 at next level, right associativity).

(* ================================================================= *)
(** ** Label slicing of a frame, [df[start:stop]] *)

(** [Index.is_monotonic_increasing]: no label is smaller than the one before. *)
Fixpoint is_monotonic_increasing (l : list Timestamp) : bool :=
  match l with
  | [] => true
  | x :: l' =>
      match l' with
      | [] => true
      | y :: _ => (x <=? y) && is_monotonic_increasing l'
      end
  end.

(** [Index.is_monotonic_decreasing]. *)
Fixpoint is_monotonic_decreasing (l : list Timestamp) : bool :=
  match l with
  | [] => true
  | x :: l' =>
      match l' with
      | [] => true
      | y :: _ => (y <=? x) && is_monotonic_decreasing l'
      end
  end.

Inductive Side : Type := SideLeft | SideRight.

Definition flip_side (s : Side) : Side :=
  match s with SideLeft => SideRight | SideRight => SideLeft end.

Definition below (side : Side) (t label : Timestamp) : bool :=
  match side with
  | SideLeft => t <? label
  | SideRight => t <=? label
  end.

(** [searchsorted] on an ascending array: the insertion point of [label],
    before the labels equal to it ([SideLeft]) or after them ([SideRight]). *)
Fixpoint searchsorted (l : list Timestamp) (label : Timestamp) (side : Side) : nat :=
  match l with
  | [] => 0%nat
  | t :: l' => if below side t label then S (searchsorted l' label side) else 0%nat
  end.

(** The positions at which [label] occurs, counted from [i]. *)
Fixpoint positions_from (i : nat) (label : Timestamp) (l : list Timestamp) : list nat :=
  match l with
  | [] => []
  | t :: l' =>
      if t =? label then i :: positions_from (S i) label l'
      else positions_from (S i) label l'
  end.

(** The positions after [p] follow it without a gap. *)
Fixpoint contiguous (p : nat) (ps : list nat) : bool :=
  match ps with
  | [] => true
  | q :: ps' => Nat.eqb q (S p) && contiguous q ps'
  end.

(** [Index.get_slice_bound(label, side)].  A label the index holds gives the
    position of its first occurrence (left) or the position after its last one
    (right), provided its occurrences form one run; otherwise pandas raises
    [KeyError].  A label the index does not hold is placed by [searchsorted]
    when the index is monotonic, and is a [KeyError] when it is not. *)
Definition get_slice_bound (idx : list Timestamp) (label : Timestamp) (side : Side)
  : Result nat :=
  match positions_from 0 label idx with
  | p :: ps =>
      if contiguous p ps then
        Ok (match side with SideLeft => p | SideRight => S (last ps p) end)
      else Raise KeyError
  | [] =>
      if is_monotonic_increasing idx then Ok (searchsorted idx label side)
      else if is_monotonic_decreasing idx then
        Ok (length idx - searchsorted (rev idx) label (flip_side side))%nat
      else Raise KeyError
  end.

(** [df[start:stop]] with two timestamps: the bounds are located in the index
    and the rows between the two positions are taken, as [df.iloc[lo:hi]]. *)
Definition getitem_slice (d : DataFrame) (start stop : Timestamp) : Result DataFrame :=
  match get_slice_bound (index d) start SideLeft with
  | Raise e => Raise e
  | Ok lo =>
      match get_slice_bound (index d) stop SideRight with
      | Raise e => Raise e
      | Ok hi => Ok (firstn (hi - lo) (skipn lo d))
      end
  end.

(* ================================================================= *)
(** ** [groupby(keys).mean()] *)

(** Insertion of a key into an ascending list without repetitions. *)
Fixpoint insert_key (k : Z) (ks : list Z) : list Z :=
  match ks with
  | [] => [k]
  | k' :: ks' =>
      if k <? k' then k :: ks
      else if k =? k' then ks
      else k' :: insert_key k ks'
  end.

(** The group keys of [groupby] (its default [sort=True]): the distinct keys,
    ascending. *)
Definition group_keys (keys : list Z) : list Z := fold_right insert_key [] keys.

Definition float_of_count (n : Z) : float := PrimFloat.of_uint63 (Uint63.of_Z n).

(** The compensated addition of pandas' [group_mean]: [acc] holds the running
    sum [sumx] and the compensation of its rounding error;
    [y = val - compensation], [t = sumx + y],
    [compensation = t - sumx - y], set to 0 when it comes out NaN, and
    [sumx = t]. *)
Definition kahan_add (acc : float * float) (val : float) : float * float :=
  let y := PrimFloat.sub val (snd acc) in
  let t := PrimFloat.add (fst acc) y in
  let c := PrimFloat.sub (PrimFloat.sub t (fst acc)) y in
  (t, if PrimFloat.eqb c c then c else 0%float).

(** One step of pandas' [group_mean]: a value that is not NaN is counted in
    [nobs] and added to the compensated sum; a NaN changes nothing. *)
Definition group_mean_step (acc : (float * float) * Z) (v : float)
  : (float * float) * Z :=
  if PrimFloat.eqb v v then (kahan_add (fst acc) v, snd acc + 1) else acc.

(** The mean of one group: the compensated sum over the count, NaN for a
    group with no value that is not NaN. *)
Definition group_mean (vs : list float) : float :=
  let acc := fold_left group_mean_step vs ((0%float, 0%float), 0) in
  if snd acc =? 0 then PrimFloat.nan
  else PrimFloat.div (fst (fst acc)) (float_of_count (snd acc)).

(** The values of the rows whose key is [k], in row order. *)
Definition group_values (k : Z) (kv : list (Z * float)) : list float :=
  map snd (filter (fun p => fst p =? k) kv).

(** [frame.groupby(keys).mean()] for a key array given beside the frame: the
    array must be as long as the frame. *)
Definition groupby_mean (d : DataFrame) (keys : list Z) : Result HourlyFrame :=
  if Nat.eqb (length keys) (length d) then
    let kv := combine keys (map row_srad d) in
    Ok (map (fun k => (k, group_mean (group_values k kv))) (group_keys keys))
  else Raise ValueError.

(* ================================================================= *)
(** ** The notebook's function *)

(** [df.index[i]]. *)
Definition index_at (i : nat) : M Timestamp :=
  d <- read_df ;;
  match nth_error (index d) i with
  | Some t => ret t
  | None => raise IndexError
  end.

(** The loop
    [for i in range(0,len(df.index)):
         if df.index[i] >= date_start and df.index[i] <= date_end:
             date_use.append(i)]
    over the remaining values [range] of [i]. *)
Fixpoint date_use_loop (range : list nat) (date_start date_end : Timestamp)
    (date_use : list nat) : M (list nat) :=
  match range with
  | [] => ret date_use
  | i :: range' =>
      t1 <- index_at i ;;
      if date_start <=? t1 then
        t2 <- index_at i ;;
        if t2 <=? date_end
        then date_use_loop range' date_start date_end (date_use ++ [i])
        else date_use_loop range' date_start date_end date_use
      else date_use_loop range' date_start date_end date_use
  end.

Section CalcHourlyMean.

(** [pd.Timestamp(s)] on a string: [Some t] when pandas reads [s] as the
    instant [t] (without a UTC offset, inside the range of nanosecond
    timestamps), [None] when the constructor raises [ValueError].  What the
    constructor yields otherwise (NaT, an instant with an offset or outside
    that range) is not modelled; the properties of the slice are stated for
    dates read as instants. *)
Variable pd_Timestamp : string -> option Timestamp.

Definition new_Timestamp (s : string) : M Timestamp :=
  match pd_Timestamp s with
  | Some t => ret t
  | None => raise ValueError
  end.

(** [calcHourlyMean(data, time_start, time_end)].  The body never names its
    parameter [data]: every [df] in it is the module-level frame. *)
Definition calcHourlyMean (data : DataFrame) (time_start time_end : string)
  : M HourlyFrame :=
  date_start <- new_Timestamp time_start ;;
  date_end <- new_Timestamp time_end ;;
  d0 <- read_df ;;
  date_use <- date_use_loop (seq 0 (length (index d0))) date_start date_end [] ;;
  d1 <- read_df ;;
  selected <- lift (getitem_slice d1 date_start date_end) ;;
  d2 <- read_df ;;
  selected' <- lift (getitem_slice d2 date_start date_end) ;;
  hourlyMean <- lift (groupby_mean selected (map hour (index selected'))) ;;
  ret hourlyMean.

(** The function with the index-collecting loop left out: filter, then group. *)
Definition calcHourlyMean_filter_then_group (data : DataFrame)
    (time_start time_end : string) : M HourlyFrame :=
  date_start <- new_Timestamp time_start ;;
  date_end <- new_Timestamp time_end ;;
  d1 <- read_df ;;
  selected <- lift (getitem_slice d1 date_start date_end) ;;
  d2 <- read_df ;;
  selected' <- lift (getitem_slice d2 date_start date_end) ;;
  hourlyMean <- lift (groupby_mean selected (map hour (index selected'))) ;;
  ret hourlyMean.

End CalcHourlyMean.

(* ================================================================= *)
(** ** Vocabulary of the specification *)

(** The entries of a series inside the closed interval [[start, stop]]. *)
Definition in_interval (start stop : Timestamp) (r : Row) : bool :=
  (start <=? row_time r) && (row_time r <=? stop).

Definition included (start stop : Timestamp) (d : DataFrame) : DataFrame :=
  filter (in_interval start stop) d.

(** The values of the rows of [d] whose hour of day is [h]. *)
Definition bucket_values (h : Z) (d : DataFrame) : list float :=
  map row_srad (filter (fun r => hour (row_time r) =? h) d).

(** Grouping a frame by the hour of its own index and averaging. *)
Definition hourly_mean (d : DataFrame) : HourlyFrame :=
  map (fun h => (h, group_mean (bucket_values h d)))
      (group_keys (map hour (index d))).




(** The series invariant of the specification's data model: timestamps in
    non-decreasing order. *)
Definition TimeSeries (d : DataFrame) : Prop :=
  is_monotonic_increasing (index d) = true.

(** What a call comes to: the two timestamps are built, the frame is sliced
    and the slice is grouped by hour; the globals are returned as they were. *)
Definition calcHourlyMean_result (pd_Timestamp : string -> option Timestamp)
    (d : DataFrame) (time_start time_end : string) : Result HourlyFrame :=
  match pd_Timestamp time_start with
  | None => Raise ValueError
  | Some date_start =>
      match pd_Timestamp time_end with
      | None => Raise ValueError
      | Some date_end =>
          match getitem_slice d date_start date_end with
          | Raise e => Raise e
          | Ok selected => Ok (hourly_mean selected)
          end
      end
  end.

(* ================================================================= *)
(** ** The notebook's calls and the scenarios of the specification *)

(** Globals in which [df] is the frame [d]. *)
Definition notebook (d : DataFrame) : Globals :=
  mkGlobals "figure01"%string ["beers_law.nc"%string] d.

(** The entries (2006-01-15 14:00, 10.0), (2006-01-15 15:00, 20.0) and
    (2007-01-15 14:00, 30.0). *)
Definition series_2006_2007 : DataFrame :=
  [ mkRow (mk_Timestamp 2006 1 15 14 0 0) 10%float;
    mkRow (mk_Timestamp 2006 1 15 15 0 0) 20%float;
    mkRow (mk_Timestamp 2007 1 15 14 0 0) 30%float ].

(** The same entries, latest first. *)
Definition series_2006_2007_reversed : DataFrame := rev series_2006_2007.

(** Two entries in the bucket of 14:00, on consecutive days. *)
Definition series_0_100 : DataFrame :=
  [ mkRow (mk_Timestamp 2006 1 15 14 0 0) 0%float;
    mkRow (mk_Timestamp 2006 1 16 14 0 0) 100%float ].


(** Three entries that share one timestamp, in two orders. *)
Definition series_tied : DataFrame :=
  [ mkRow (mk_Timestamp 2006 1 15 14 0 0) 1e16%float;
    mkRow (mk_Timestamp 2006 1 15 14 0 0) 1%float;
    mkRow (mk_Timestamp 2006 1 15 14 0 0) (-1e16)%float ].

Definition series_tied_permuted : DataFrame :=
  [ mkRow (mk_Timestamp 2006 1 15 14 0 0) 1e16%float;
    mkRow (mk_Timestamp 2006 1 15 14 0 0) (-1e16)%float;
    mkRow (mk_Timestamp 2006 1 15 14 0 0) 1%float ].

(** The hours of a day. *)
Definition hours_of_day : list Z := map Z.of_nat (seq 0 24).

(** The shape the specification asks of a result: one bucket for each hour
    0..23, in this order. *)
Definition has_all_24_buckets (res : HourlyFrame) : Prop :=
  map fst res = hours_of_day.

(** The result the specification describes for the three-entry scenario:
    a bucket for every hour 0..23, 10.0 at 14, 20.0 at 15 and no-data (NaN)
    in all the others. *)
Definition scenario_frame_as_specified : HourlyFrame :=
  map (fun h => (h, if h =? 14 then 10%float
                    else if h =? 15 then 20%float
                    else PrimFloat.nan))
      hours_of_day.

(** The result does not depend on the order of the rows of [df]. *)
Definition order_independent (pd_Timestamp : string -> option Timestamp)
    (d d' : DataFrame) (time_start time_end : string) : Prop :=
  fst (calcHourlyMean pd_Timestamp d time_start time_end (notebook d))
  = fst (calcHourlyMean pd_Timestamp d' time_start time_end (notebook d')).

(* ================================================================= *)
(** ** The other cells of the notebook *)

(** [s.endswith(suffix)]. *)
Fixpoint endswith (s suffix : string) : bool :=
  String.eqb s suffix
  || match s with
     | EmptyString => false
     | String _ s' => endswith s' suffix
     end.

(** [sub in s] on strings: [sub] occurs in [s]. *)
Fixpoint contains (sub s : string) : bool :=
  String.prefix sub s
  || match s with
     | EmptyString => false
     | String _ s' => contains sub s'
     end.

(** The test of the comprehension that builds [dataFiles]:
    [file.endswith('.nc') and not 'spinup' in file]. *)
Definition is_result_file (file : string) : bool :=
  endswith file ".nc"%string && negb (contains "spinup"%string file).

(** [[file for file in os.listdir(dataFolder) if ...]], for the list
    [os.listdir] returned. *)
Definition find_dataFiles (listing : list string) : list string :=
  filter is_result_file listing.

(** [dataFiles[0]], the file the notebook opens. *)
Definition first_dataFile (files : list string) : Result string :=
  match files with
  | [] => Raise IndexError
  | file :: _ => Ok file
  end.

(** The cell that extracts the three periods,
    [srad_beer_2005_2006 = calcHourlyMean(df, '2005-10-01', '2006-09-30')],
    [srad_beer_2006_2007 = calcHourlyMean(df, '2006-10-01', '2007-09-30')],
    [srad_beer_2007_2008 = calcHourlyMean(df, '2007-10-01', '2008-09-30')]:
    the frames bound to the three names, with [pd.Timestamp] read on the six
    date strings by [Timestamp_of_date]. *)
Definition periods_cell : M (HourlyFrame * HourlyFrame * HourlyFrame) :=
  d1 <- read_df ;;
  srad_beer_2005_2006 <-
    calcHourlyMean Timestamp_of_date d1 "2005-10-01"%string "2006-09-30"%string ;;
  d2 <- read_df ;;
  srad_beer_2006_2007 <-
    calcHourlyMean Timestamp_of_date d2 "2006-10-01"%string "2007-09-30"%string ;;
  d3 <- read_df ;;
  srad_beer_2007_2008 <-
    calcHourlyMean Timestamp_of_date d3 "2007-10-01"%string "2008-09-30"%string ;;
  ret (srad_beer_2005_2006, srad_beer_2006_2007, srad_beer_2007_2008).

(** The globals with another frame bound to [df]. *)
Definition with_df (g : Globals) (d : DataFrame) : Globals :=
  mkGlobals (dataFolder g) (dataFiles g) d.

(** The frame with every index label moved by [delta] nanoseconds. *)
Definition shift_index (delta : Z) (d : DataFrame) : DataFrame :=
  map (fun r => mkRow (row_time r + delta) (row_srad r)) d.

Definition ns_per_day : Z := 24 * ns_per_hour.

(** The number of labels that pass a test. *)
Definition count_labels (f : Timestamp -> bool) (l : list Timestamp) : nat :=
  length (filter f l).

(** The positions the loop of [calcHourlyMean] is meant to collect: those of
    the labels inside the closed interval. *)
Definition positions_in_interval (start stop : Timestamp) (l : list Timestamp)
  : list nat :=
  filter (fun i =>
            match nth_error l i with
            | Some t => (start <=? t) && (t <=? stop)
            | None => false
            end)
         (seq 0 (length l)).

(** The three entries of the scenario with the first two exchanged: an index
    in neither ascending nor descending order. *)
Definition series_unordered : DataFrame :=
  [ mkRow (mk_Timestamp 2006 1 15 15 0 0) 20%float;
    mkRow (mk_Timestamp 2006 1 15 14 0 0) 10%float;
    mkRow (mk_Timestamp 2007 1 15 14 0 0) 30%float ].

(** A directory listing with a spin-up run and a file of another kind. *)
Definition listing_figure01 : list string :=
  [ "readme.txt"%string;
    "vegImpactsRad_spinup_beersLaw.nc"%string;
    "vegImpactsRad_2005-2006_beersLaw_1.nc"%string;
    "vegImpactsRad_2005-2006_CLM2stream_1.nc"%string ].

(** Three midnight entries out of order: 1 March, 1 January, 1 February. *)
Definition series_unordered_days : DataFrame :=
  [ mkRow (mk_Timestamp 2006 3 1 0 0 0) 30%float;
    mkRow (mk_Timestamp 2006 1 1 0 0 0) 10%float;
    mkRow (mk_Timestamp 2006 2 1 0 0 0) 20%float ].

(* ================================================================= *)
(** * Properties *)

(** ** Running the monad *)

Lemma bind_ok {A B} (c : M A) (k : A -> M B) g a g' :
  c g = (Ok a, g') -> bind c k g = k a g'.
Proof. unfold bind. intros ->. reflexivity. Qed.

Lemma bind_raise {A B} (c : M A) (k : A -> M B) g e g' :
  c g = (Raise e, g') -> bind c k g = (Raise e, g').
Proof. unfold bind. intros ->. reflexivity. Qed.

Lemma index_at_ok i t g :
  nth_error (index (df g)) i = Some t -> index_at i g = (Ok t, g).
Proof.
  intros H. unfold index_at, bind, read_df. rewrite H. reflexivity.
Qed.

(** The loop runs to its end on every frame: each [i] it visits is a valid
    position, so no [df.index[i]] raises, and the globals are as before. *)
Lemma date_use_loop_total ds de g :
  forall range date_use,
    (forall i, In i range -> (i < length (index (df g)))%nat) ->
    exists l, date_use_loop range ds de date_use g = (Ok l, g).
Proof.
  induction range as [|i range IH]; intros acc Hin; simpl.
  - exists acc. reflexivity.
  - assert (Hi : (i < length (index (df g)))%nat) by (apply Hin; left; reflexivity).
    destruct (nth_error (index (df g)) i) as [t|] eqn:Ht.
    2:{ apply nth_error_None in Ht. lia. }
    assert (Hrest : forall j, In j range -> (j < length (index (df g)))%nat)
      by (intros j Hj; apply Hin; right; exact Hj).
    rewrite (bind_ok _ _ _ _ _ (index_at_ok _ _ _ Ht)).
    destruct (ds <=? t).
    + rewrite (bind_ok _ _ _ _ _ (index_at_ok _ _ _ Ht)).
      destruct (t <=? de); apply IH; exact Hrest.
    + apply IH; exact Hrest.
Qed.

Lemma date_use_loop_range ds de g :
  exists l,
    date_use_loop (seq 0 (length (index (df g)))) ds de [] g = (Ok l, g).
Proof.
  apply date_use_loop_total. intros i Hi. apply in_seq in Hi. lia.
Qed.

(** ** Grouping by the hour of the frame's own index *)

Lemma combine_hour_srad (d : DataFrame) :
  combine (map hour (index d)) (map row_srad d)
  = map (fun r => (hour (row_time r), row_srad r)) d.
Proof.
  unfold index. induction d as [|r d IH]; simpl; [reflexivity|].
  rewrite IH. reflexivity.
Qed.

Lemma group_values_bucket k (d : DataFrame) :
  group_values k (map (fun r => (hour (row_time r), row_srad r)) d)
  = bucket_values k d.
Proof.
  unfold group_values, bucket_values.
  induction d as [|r d IH]; simpl; [reflexivity|].
  destruct (hour (row_time r) =? k); simpl; rewrite IH; reflexivity.
Qed.

Lemma groupby_hour_mean (d : DataFrame) :
  groupby_mean d (map hour (index d)) = Ok (hourly_mean d).
Proof.
  unfold groupby_mean, hourly_mean.
  assert (Hlen : Nat.eqb (length (map hour (index d))) (length d) = true).
  { apply Nat.eqb_eq. unfold index. rewrite !length_map. reflexivity. }
  rewrite Hlen. f_equal.
  apply map_ext. intros k.
  rewrite combine_hour_srad, group_values_bucket. reflexivity.
Qed.

Lemma filter_then_group_run pd_Timestamp data s e g :
  calcHourlyMean_filter_then_group pd_Timestamp data s e g
  = (calcHourlyMean_result pd_Timestamp (df g) s e, g).
Proof.
  unfold calcHourlyMean_filter_then_group, calcHourlyMean_result, new_Timestamp.
  unfold bind, ret, raise, lift, read_df.
  destruct (pd_Timestamp s) as [ds|]; [|reflexivity].
  destruct (pd_Timestamp e) as [de|]; [|reflexivity].
  destruct (getitem_slice (df g) ds de) as [sel|x]; [|reflexivity].
  rewrite groupby_hour_mean. reflexivity.
Qed.

Lemma calcHourlyMean_run pd_Timestamp data s e g :
  calcHourlyMean pd_Timestamp data s e g
  = (calcHourlyMean_result pd_Timestamp (df g) s e, g).
Proof.
  rewrite <- (filter_then_group_run pd_Timestamp data).
  unfold calcHourlyMean, calcHourlyMean_filter_then_group, new_Timestamp.
  destruct (pd_Timestamp s) as [ds|]; [|reflexivity].
  destruct (pd_Timestamp e) as [de|].
  2:{ reflexivity. }
  destruct (date_use_loop_range ds de g) as [l Hl].
  unfold bind at 1 2 3. unfold ret at 1 2. unfold read_df at 1. cbv beta iota.
  unfold bind at 1. rewrite Hl. reflexivity.
Qed.

(** ** Slicing a frame whose index is in order *)

Lemma monotonic_cons x l :
  is_monotonic_increasing (x :: l) = true ->
  Forall (fun y => x <= y) l /\ is_monotonic_increasing l = true.
Proof.
  revert x. induction l as [|y l IH]; intros x H.
  - split; [constructor | reflexivity].
  - change ((x <=? y) && is_monotonic_increasing (y :: l) = true) in H.
    apply andb_true_iff in H. destruct H as [Hxy Hs].
    apply Z.leb_le in Hxy.
    destruct (IH y Hs) as [Hall _].
    split; [|exact Hs].
    constructor; [exact Hxy|].
    eapply Forall_impl; [|exact Hall]. simpl. intros z Hz. lia.
Qed.

Lemma searchsorted_none side label l :
  Forall (fun t => below side t label = false) l ->
  searchsorted l label side = 0%nat.
Proof.
  intros H. destruct l as [|t l]; [reflexivity|].
  simpl. inversion H as [|? ? Ht _]; subst. rewrite Ht. reflexivity.
Qed.

Lemma searchsorted_left_le_right l label :
  (searchsorted l label SideLeft <= searchsorted l label SideRight)%nat.
Proof.
  induction l as [|t l IH]; simpl; [lia|].
  destruct (t <? label) eqn:Hlt.
  - apply Z.ltb_lt in Hlt.
    assert (Hle : (t <=? label) = true) by (apply Z.leb_le; lia).
    rewrite Hle. lia.
  - lia.
Qed.

(** In an ordered index the occurrences of a label are the positions from
    its left insertion point up to its right one. *)
Lemma positions_sorted label :
  forall l i,
    is_monotonic_increasing l = true ->
    positions_from i label l
    = seq (i + searchsorted l label SideLeft)
          (searchsorted l label SideRight - searchsorted l label SideLeft).
Proof.
  induction l as [|t l IH]; intros i Hs; [reflexivity|].
  destruct (monotonic_cons _ _ Hs) as [Hall Hs'].
  simpl.
  destruct (Z.compare_spec t label) as [Heq | Hlt | Hgt].
  - subst t.
    rewrite Z.eqb_refl, Z.ltb_irrefl, Z.leb_refl.
    rewrite (IH (S i) Hs').
    assert (H0 : searchsorted l label SideLeft = 0%nat).
    { apply searchsorted_none. eapply Forall_impl; [|exact Hall].
      simpl. intros z Hz. apply Z.ltb_ge. lia. }
    rewrite H0, !Nat.add_0_r, !Nat.sub_0_r. reflexivity.
  - assert (H1 : (t =? label) = false) by (apply Z.eqb_neq; lia).
    assert (H2 : (t <? label) = true) by (apply Z.ltb_lt; lia).
    assert (H3 : (t <=? label) = true) by (apply Z.leb_le; lia).
    rewrite H1, H2, H3, (IH (S i) Hs').
    f_equal; lia.
  - assert (H1 : (t =? label) = false) by (apply Z.eqb_neq; lia).
    assert (H2 : (t <? label) = false) by (apply Z.ltb_ge; lia).
    assert (H3 : (t <=? label) = false) by (apply Z.leb_gt; lia).
    rewrite H1, H2, H3, (IH (S i) Hs').
    assert (HL : searchsorted l label SideLeft = 0%nat).
    { apply searchsorted_none. eapply Forall_impl; [|exact Hall].
      simpl. intros z Hz. apply Z.ltb_ge. lia. }
    assert (HR : searchsorted l label SideRight = 0%nat).
    { apply searchsorted_none. eapply Forall_impl; [|exact Hall].
      simpl. intros z Hz. apply Z.leb_gt. lia. }
    rewrite HL, HR. reflexivity.
Qed.

Lemma contiguous_seq n p : contiguous p (seq (S p) n) = true.
Proof.
  revert p. induction n as [|n IH]; intros p; simpl; [reflexivity|].
  rewrite Nat.eqb_refl, IH. reflexivity.
Qed.

Lemma last_seq_nonempty n :
  forall a d, last (seq a (S n)) d = (a + n)%nat.
Proof.
  induction n as [|n IH]; intros a d.
  - simpl. lia.
  - change (seq a (S (S n))) with (a :: seq (S a) (S n)).
    change (last (a :: seq (S a) (S n)) d) with (last (seq (S a) (S n)) d).
    rewrite IH. lia.
Qed.

Lemma last_seq n p : last (seq (S p) n) p = (p + n)%nat.
Proof.
  destruct n as [|n]; [simpl; lia|].
  rewrite last_seq_nonempty. lia.
Qed.

(** On an ordered index a slice bound is the insertion point of the label,
    whether the index holds the label or not. *)
Lemma get_slice_bound_sorted idx label side :
  is_monotonic_increasing idx = true ->
  get_slice_bound idx label side = Ok (searchsorted idx label side).
Proof.
  intros Hs. unfold get_slice_bound.
  rewrite (positions_sorted label idx 0 Hs). simpl (0 + _)%nat.
  pose proof (searchsorted_left_le_right idx label) as Hle.
  destruct (searchsorted idx label SideRight - searchsorted idx label SideLeft)%nat
    as [|n] eqn:Hn.
  - simpl. rewrite Hs. reflexivity.
  - simpl. rewrite contiguous_seq, last_seq.
    destruct side; f_equal; lia.
Qed.

Lemma included_none a b (d : DataFrame) :
  Forall (fun r => in_interval a b r = false) d -> included a b d = [].
Proof.
  unfold included. induction d as [|r d IH]; intros H; [reflexivity|].
  inversion H as [|? ? Hr Hd]; subst. simpl. rewrite Hr. apply IH. exact Hd.
Qed.

(** The rows between the two insertion points of an ordered frame are the
    rows whose timestamp lies in the closed interval. *)
Lemma slice_sorted a b (d : DataFrame) :
  TimeSeries d ->
  firstn (searchsorted (index d) b SideRight - searchsorted (index d) a SideLeft)
         (skipn (searchsorted (index d) a SideLeft) d)
  = included a b d.
Proof.
  unfold TimeSeries.
  induction d as [|r d IH]; intros Hs; [reflexivity|].
  change (index (r :: d)) with (row_time r :: index d) in *.
  destruct (monotonic_cons _ _ Hs) as [Hall Hs'].
  specialize (IH Hs').
  assert (Hrows : Forall (fun r' => row_time r <= row_time r') d).
  { unfold index in Hall. rewrite Forall_map in Hall. exact Hall. }
  unfold included in *. simpl. unfold in_interval at 1.
  destruct (row_time r <? a) eqn:Hlt.
  - apply Z.ltb_lt in Hlt.
    assert (Ha : (a <=? row_time r) = false) by (apply Z.leb_gt; lia).
    rewrite Ha. simpl.
    destruct (row_time r <=? b) eqn:Hb.
    + simpl. exact IH.
    + apply Z.leb_gt in Hb. simpl. symmetry. apply included_none.
      eapply Forall_impl; [|exact Hrows]. simpl. intros r' Hr'.
      unfold in_interval. apply andb_false_iff. right. apply Z.leb_gt. lia.
  - apply Z.ltb_ge in Hlt.
    assert (Ha : (a <=? row_time r) = true) by (apply Z.leb_le; lia).
    rewrite Ha. simpl.
    assert (HL : searchsorted (index d) a SideLeft = 0%nat).
    { apply searchsorted_none. unfold index. rewrite Forall_map.
      eapply Forall_impl; [|exact Hrows]. simpl. intros r' Hr'.
      apply Z.ltb_ge. lia. }
    rewrite HL in IH. simpl in IH. rewrite Nat.sub_0_r in IH.
    destruct (row_time r <=? b) eqn:Hb.
    + rewrite Nat.sub_0_r. simpl. f_equal. exact IH.
    + apply Z.leb_gt in Hb. simpl. symmetry. apply included_none.
      eapply Forall_impl; [|exact Hrows]. simpl. intros r' Hr'.
      unfold in_interval. apply andb_false_iff. right. apply Z.leb_gt. lia.
Qed.

(** [df[start:stop]] on a series in order never raises and is the filter of
    the specification. *)
Lemma getitem_slice_sorted a b (d : DataFrame) :
  TimeSeries d -> getitem_slice d a b = Ok (included a b d).
Proof.
  intros Hs. unfold getitem_slice.
  rewrite !(get_slice_bound_sorted _ _ _ Hs).
  rewrite (slice_sorted a b d Hs). reflexivity.
Qed.

Lemma calcHourlyMean_sorted pd_Timestamp data s e g ds de :
  TimeSeries (df g) ->
  pd_Timestamp s = Some ds ->
  pd_Timestamp e = Some de ->
  calcHourlyMean pd_Timestamp data s e g
  = (Ok (hourly_mean (included ds de (df g))), g).
Proof.
  intros Hs Hds Hde.
  rewrite calcHourlyMean_run. unfold calcHourlyMean_result.
  rewrite Hds, Hde, (getitem_slice_sorted ds de (df g) Hs). reflexivity.
Qed.

Lemma included_In a b (d : DataFrame) r :
  In r (included a b d) <-> In r d /\ a <= row_time r <= b.
Proof.
  unfold included, in_interval. rewrite filter_In, andb_true_iff.
  rewrite !Z.leb_le. tauto.
Qed.

(** ** Group keys *)

Lemma insert_key_In x k ks : In x (insert_key k ks) <-> x = k \/ In x ks.
Proof.
  induction ks as [|k' ks IH]; simpl.
  - intuition.
  - destruct (k <? k') eqn:Hlt; [simpl; intuition|].
    destruct (k =? k') eqn:Heq.
    + apply Z.eqb_eq in Heq. subst k'. simpl. intuition.
    + simpl. rewrite IH. intuition.
Qed.

Lemma insert_key_sorted k ks :
  StronglySorted Z.lt ks -> StronglySorted Z.lt (insert_key k ks).
Proof.
  induction ks as [|k' ks IH]; intros Hs; simpl.
  - constructor; constructor.
  - apply StronglySorted_inv in Hs. destruct Hs as [Hs Hall].
    destruct (k <? k') eqn:Hlt.
    + apply Z.ltb_lt in Hlt. constructor.
      * constructor; assumption.
      * constructor; [exact Hlt|].
        eapply Forall_impl; [|exact Hall]. simpl. intros z Hz. lia.
    + destruct (k =? k') eqn:Heq.
      * constructor; assumption.
      * apply Z.ltb_ge in Hlt. apply Z.eqb_neq in Heq.
        constructor; [apply IH; exact Hs|].
        apply Forall_forall. intros z Hz.
        apply insert_key_In in Hz. destruct Hz as [-> | Hz]; [lia|].
        rewrite Forall_forall in Hall. apply Hall. exact Hz.
Qed.

Lemma group_keys_sorted keys : StronglySorted Z.lt (group_keys keys).
Proof.
  unfold group_keys. induction keys as [|k keys IH]; simpl.
  - constructor.
  - apply insert_key_sorted. exact IH.
Qed.

Lemma group_keys_In x keys : In x (group_keys keys) <-> In x keys.
Proof.
  unfold group_keys. induction keys as [|k keys IH]; simpl; [tauto|].
  rewrite insert_key_In, IH. intuition.
Qed.

(** Two strictly ascending lists with the same members are the same list. *)
Lemma sorted_same_members :
  forall l1 l2,
    StronglySorted Z.lt l1 -> StronglySorted Z.lt l2 ->
    (forall x, In x l1 <-> In x l2) -> l1 = l2.
Proof.
  induction l1 as [|a l1 IH]; intros l2 H1 H2 Hmem.
  - destruct l2 as [|b l2]; [reflexivity|].
    exfalso. apply (proj2 (Hmem b)). left. reflexivity.
  - destruct l2 as [|b l2].
    { exfalso. apply (proj1 (Hmem a)). left. reflexivity. }
    apply StronglySorted_inv in H1. destruct H1 as [H1 Ha].
    apply StronglySorted_inv in H2. destruct H2 as [H2 Hb].
    rewrite Forall_forall in Ha, Hb.
    assert (Hab : a = b).
    { destruct (proj1 (Hmem a) (or_introl eq_refl)) as [E | Hin]; [symmetry; exact E|].
      destruct (proj2 (Hmem b) (or_introl eq_refl)) as [E | Hin']; [exact E|].
      specialize (Ha _ Hin'). specialize (Hb _ Hin). lia. }
    subst b. f_equal. apply IH; try assumption.
    intros x. split; intros Hx.
    + destruct (proj1 (Hmem x) (or_intror Hx)) as [E | Hin]; [|exact Hin].
      subst x. specialize (Ha _ Hx). lia.
    + destruct (proj2 (Hmem x) (or_intror Hx)) as [E | Hin]; [|exact Hin].
      subst x. specialize (Hb _ Hx). lia.
Qed.

Lemma hour_range t : 0 <= hour t < 24.
Proof. unfold hour. apply Z.mod_pos_bound. lia. Qed.

(** A strictly ascending list of integers from [[lo, hi)] has at most
    [hi - lo] members. *)
Lemma sorted_length_bound :
  forall l lo hi,
    StronglySorted Z.lt l ->
    Forall (fun x => lo <= x < hi) l ->
    Z.of_nat (length l) <= Z.max 0 (hi - lo).
Proof.
  induction l as [|a l IH]; intros lo hi Hs Hr; simpl length.
  - lia.
  - apply StronglySorted_inv in Hs. destruct Hs as [Hs Ha].
    inversion Hr as [|? ? Hra Hrl]; subst.
    assert (Hl : Forall (fun x => a + 1 <= x < hi) l).
    { rewrite Forall_forall in *. intros x Hx.
      specialize (Ha _ Hx). specialize (Hrl _ Hx). lia. }
    specialize (IH (a + 1) hi Hs Hl). lia.
Qed.

Lemma hourly_mean_keys (d : DataFrame) :
  map fst (hourly_mean d) = group_keys (map hour (index d)).
Proof.
  unfold hourly_mean. rewrite map_map. simpl. apply map_id.
Qed.

Lemma lookup_map_keys (f : Z -> float) h :
  forall ks, In h ks -> lookup h (map (fun k => (k, f k)) ks) = Some (f h).
Proof.
  induction ks as [|k ks IH]; intros Hin; [contradiction|].
  simpl. destruct (k =? h) eqn:Hk.
  - apply Z.eqb_eq in Hk. subst k. reflexivity.
  - apply IH. destruct Hin as [E | Hin]; [|exact Hin].
    apply Z.eqb_neq in Hk. contradiction.
Qed.

Lemma lookup_map_absent (f : Z -> float) h :
  forall ks, ~ In h ks -> lookup h (map (fun k => (k, f k)) ks) = None.
Proof.
  induction ks as [|k ks IH]; intros Hin; [reflexivity|].
  simpl. destruct (k =? h) eqn:Hk.
  - apply Z.eqb_eq in Hk. subst k. exfalso. apply Hin. left. reflexivity.
  - apply IH. intros H. apply Hin. right. exact H.
Qed.

(** The hours that occur in a frame are the keys of its hourly means. *)
Lemma hour_key_iff h (d : DataFrame) :
  In h (group_keys (map hour (index d)))
  <-> exists r, In r d /\ hour (row_time r) = h.
Proof.
  rewrite group_keys_In. unfold index. rewrite map_map, in_map_iff.
  split; intros [r [H1 H2]]; exists r; tauto.
Qed.

(** ** The mean of a group *)






Lemma hourly_mean_lookup h (d : DataFrame) :
  (exists r, In r d /\ hour (row_time r) = h) ->
  lookup h (hourly_mean d) = Some (group_mean (bucket_values h d)).
Proof.
  intros H. unfold hourly_mean.
  apply (lookup_map_keys (fun k => group_mean (bucket_values k d))).
  apply hour_key_iff. exact H.
Qed.

Lemma hourly_mean_absent h (d : DataFrame) :
  ~ (exists r, In r d /\ hour (row_time r) = h) ->
  lookup h (hourly_mean d) = None.
Proof.
  intros H. unfold hourly_mean.
  apply (lookup_map_absent (fun k => group_mean (bucket_values k d))).
  intros Hin. apply H. apply hour_key_iff. exact Hin.
Qed.

Lemma sorted_NoDup l : StronglySorted Z.lt l -> NoDup l.
Proof.
  induction l as [|a l IH]; intros Hs; constructor.
  - apply StronglySorted_inv in Hs. destruct Hs as [_ Ha].
    rewrite Forall_forall in Ha. intros Hin. specialize (Ha _ Hin). lia.
  - apply IH. apply StronglySorted_inv in Hs. tauto.
Qed.

(** ** Concrete runs of the model *)

Example epoch_of_the_input_file :
  mk_Timestamp 1990 1 1 0 0 0 = 631152000 * ns_per_second.
Proof. reflexivity. Qed.

Example Timestamp_of_date_midnight :
  Timestamp_of_date "2005-10-01"%string = Some (mk_Timestamp 2005 10 1 0 0 0)
  /\ Timestamp_of_date "2005-02-29"%string = None.
Proof. split; reflexivity. Qed.

Example hour_of_afternoon :
  hour (mk_Timestamp 2006 1 15 14 0 0) = 14
  /\ hour (mk_Timestamp 2007 1 15 23 59 59) = 23.
Proof. split; reflexivity. Qed.

(** The sum of a group is compensated: 1e16, 1 and 1 average to
    3333333333333334, where adding them one after the other would lose both
    ones; a NaN is passed over. *)
Example group_mean_compensated :
  group_mean [1e16%float; 1%float; 1%float] = 3333333333333334%float
  /\ group_mean [1e16%float; PrimFloat.nan; 1%float; 1%float]
     = 3333333333333334%float
  /\ PrimFloat.div (PrimFloat.add (PrimFloat.add 1e16%float 1%float) 1%float)
                   3%float
     = 3333333333333333.5%float.
Proof. repeat split. Qed.

(** The loop collects the positions 0 and 1 of the three-entry series. *)
Example date_use_of_scenario :
  fst (date_use_loop (seq 0 3) (mk_Timestamp 2005 10 1 0 0 0)
         (mk_Timestamp 2006 9 30 0 0 0) [] (notebook series_2006_2007))
  = Ok [0%nat; 1%nat].
Proof. vm_compute. reflexivity. Qed.

(** A string [pd.Timestamp] rejects ends the call before [df] is read. *)
Example unreadable_date_raises :
  fst (calcHourlyMean Timestamp_of_date [] "2005-10-01"%string "someday"%string
         (notebook series_2006_2007))
  = Raise ValueError.
Proof. vm_compute. reflexivity. Qed.

(** On an index that is neither ascending nor descending a bound the index
    does not hold cannot be placed. *)
Example unordered_index_raises :
  getitem_slice
    [ mkRow (mk_Timestamp 2006 1 15 15 0 0) 20%float;
      mkRow (mk_Timestamp 2006 1 15 14 0 0) 10%float;
      mkRow (mk_Timestamp 2007 1 15 14 0 0) 30%float ]
    (mk_Timestamp 2005 10 1 0 0 0) (mk_Timestamp 2006 9 30 0 0 0)
  = Raise KeyError.
Proof. vm_compute. reflexivity. Qed.

(* ================================================================= *)
(** * The claims of the specification *)

Local Open Scope string_scope.

(** C1 - Filtering.  On a series in time order, a call returns the hourly
    means of exactly the entries whose timestamp [t] satisfies
    [start <= t <= end]: an entry is among the grouped rows if and only if it
    is in the series and inside the closed interval, each such entry's value
    is one of the values averaged in the bucket of its hour, and an entry
    whose timestamp equals [start] or [end] of a valid interval is included. *)
Theorem C1_filter_closed_interval pd_Timestamp data s e g ds de :
  TimeSeries (df g) ->
  pd_Timestamp s = Some ds ->
  pd_Timestamp e = Some de ->
  calcHourlyMean pd_Timestamp data s e g
  = (Ok (hourly_mean (included ds de (df g))), g)
  /\ (forall r, In r (included ds de (df g))
                <-> In r (df g) /\ ds <= row_time r <= de)
  /\ (forall r, In r (included ds de (df g)) ->
        In (row_srad r)
           (bucket_values (hour (row_time r)) (included ds de (df g)))
        /\ lookup (hour (row_time r)) (hourly_mean (included ds de (df g)))
           = Some (group_mean
                     (bucket_values (hour (row_time r)) (included ds de (df g)))))
  /\ (forall r, In r (df g) -> ds <= de ->
        row_time r = ds \/ row_time r = de ->
        In r (included ds de (df g))).
Proof.
  intros Hs Hds Hde. split; [|split; [|split]].
  - apply calcHourlyMean_sorted; assumption.
  - intros r. apply included_In.
  - intros r Hr. split.
    + unfold bucket_values. apply in_map. apply filter_In.
      split; [exact Hr | apply Z.eqb_refl].
    + apply hourly_mean_lookup. exists r. split; [exact Hr | reflexivity].
  - intros r Hr Hle Hb. apply included_In. split; [exact Hr|].
    destruct Hb as [Hb | Hb]; rewrite Hb; lia.
Qed.

Lemma C1_filter_closed_interval_witness :
  calcHourlyMean Timestamp_of_date series_2006_2007 "2005-10-01" "2006-09-30"
    (notebook series_2006_2007)
  = (Ok (hourly_mean (included (mk_Timestamp 2005 10 1 0 0 0)
                               (mk_Timestamp 2006 9 30 0 0 0)
                               series_2006_2007)),
     notebook series_2006_2007).
Proof.
  refine (proj1 (C1_filter_closed_interval Timestamp_of_date series_2006_2007
                   "2005-10-01" "2006-09-30" (notebook series_2006_2007)
                   (mk_Timestamp 2005 10 1 0 0 0) (mk_Timestamp 2006 9 30 0 0 0)
                   _ _ _)).
  - reflexivity.
  - reflexivity.
  - reflexivity.
Defined.

(** C2 (as stated, refuted) - The result does not always have 24 buckets:
    for the three-entry series of the specification it has the two buckets 14
    and 15 only, and for an empty series it has none. *)
Lemma C2_counterexample :
  fst (calcHourlyMean Timestamp_of_date series_2006_2007
         "2005-10-01" "2006-09-30" (notebook series_2006_2007))
  = Ok [(14, 10%float); (15, 20%float)]
  /\ ~ has_all_24_buckets [(14, 10%float); (15, 20%float)]
  /\ fst (calcHourlyMean Timestamp_of_date [] "2005-10-01" "2006-09-30"
            (notebook []))
     = Ok []
  /\ ~ has_all_24_buckets [].
Proof.
  split; [vm_compute; reflexivity|].
  split; [intros H; vm_compute in H; discriminate|].
  split; [vm_compute; reflexivity|].
  intros H; vm_compute in H; discriminate.
Qed.

(** C2 (amended) - On a series in time order the result has one bucket for
    each hour of day that has an included entry and no other: an hour is a
    key of the result if and only if some included entry falls in it, the
    keys are hours 0..23 in strictly ascending order, so at most 24 of them,
    an hour with no contributing entry is omitted (it has no row) instead of
    being present as no-data, and for an empty series the result is empty. *)
Theorem C2_buckets_ascending_at_most_24 pd_Timestamp data s e g ds de :
  TimeSeries (df g) ->
  pd_Timestamp s = Some ds ->
  pd_Timestamp e = Some de ->
  exists res,
    fst (calcHourlyMean pd_Timestamp data s e g) = Ok res
    /\ (forall h, In h (map fst res)
                  <-> exists r, In r (included ds de (df g))
                                /\ hour (row_time r) = h)
    /\ StronglySorted Z.lt (map fst res)
    /\ Forall (fun h => 0 <= h < 24) (map fst res)
    /\ (length res <= 24)%nat
    /\ (forall h, ~ (exists r, In r (included ds de (df g))
                               /\ hour (row_time r) = h) ->
                  lookup h res = None)
    /\ (df g = [] -> res = []).
Proof.
  intros Hs Hds Hde.
  exists (hourly_mean (included ds de (df g))).
  rewrite (calcHourlyMean_sorted _ data _ _ _ _ _ Hs Hds Hde).
  rewrite hourly_mean_keys.
  pose proof (group_keys_sorted (map hour (index (included ds de (df g))))) as Hsorted.
  assert (Hrange : Forall (fun h => 0 <= h < 24)
                     (group_keys (map hour (index (included ds de (df g)))))).
  { apply Forall_forall. intros h Hh. apply hour_key_iff in Hh.
    destruct Hh as [r [_ <-]]. apply hour_range. }
  split; [reflexivity|].
  split; [intros h; apply hour_key_iff|].
  split; [exact Hsorted|].
  split; [exact Hrange|].
  split.
  - pose proof (sorted_length_bound _ 0 24 Hsorted Hrange) as Hb.
    rewrite <- hourly_mean_keys, length_map in Hb. lia.
  - split.
    + intros h Hh. apply hourly_mean_absent. exact Hh.
    + intros Hnil. rewrite Hnil. reflexivity.
Qed.

(** In the three-entry scenario the hour 14 has an included entry, so the
    result has a bucket for it. *)
Lemma C2_buckets_ascending_at_most_24_witness :
  exists res,
    fst (calcHourlyMean Timestamp_of_date series_2006_2007
           "2005-10-01" "2006-09-30" (notebook series_2006_2007)) = Ok res
    /\ In 14 (map fst res)
    /\ (length res <= 24)%nat.
Proof.
  destruct (C2_buckets_ascending_at_most_24 Timestamp_of_date series_2006_2007
              "2005-10-01" "2006-09-30" (notebook series_2006_2007)
              (mk_Timestamp 2005 10 1 0 0 0) (mk_Timestamp 2006 9 30 0 0 0)
              eq_refl eq_refl eq_refl)
    as [res [Hres [Hkeys [_ [_ [Hlen _]]]]]].
  exists res. split; [exact Hres|]. split; [|exact Hlen].
  apply Hkeys.
  exists (mkRow (mk_Timestamp 2006 1 15 14 0 0) 10%float).
  split; [left; reflexivity | reflexivity].
Defined.

(** C3 - The routine reads the module-level frame, not its first parameter:
    whatever two frames are passed as [data], calls with the same
    module-level [df] and the same date strings return the same result, also
    when the other module-level names differ. *)
Theorem C3_data_parameter_ignored pd_Timestamp d1 d2 s e g g' :
  df g = df g' ->
  fst (calcHourlyMean pd_Timestamp d1 s e g)
  = fst (calcHourlyMean pd_Timestamp d2 s e g')
  /\ calcHourlyMean pd_Timestamp d1 s e g = calcHourlyMean pd_Timestamp d2 s e g
  /\ fst (calcHourlyMean pd_Timestamp d1 s e g)
     = calcHourlyMean_result pd_Timestamp (df g) s e.
Proof.
  intros Hdf. rewrite !calcHourlyMean_run. simpl fst.
  rewrite Hdf. repeat split.
Qed.

Lemma C3_data_parameter_ignored_witness :
  fst (calcHourlyMean Timestamp_of_date [] "2005-10-01" "2006-09-30"
         (notebook series_2006_2007))
  = fst (calcHourlyMean Timestamp_of_date series_0_100 "2005-10-01" "2006-09-30"
           (mkGlobals "elsewhere" [] series_2006_2007)).
Proof.
  refine (proj1 (C3_data_parameter_ignored Timestamp_of_date [] series_0_100
                   "2005-10-01" "2006-09-30" (notebook series_2006_2007)
                   (mkGlobals "elsewhere" [] series_2006_2007) _)).
  reflexivity.
Defined.

(** C4 (as stated, refuted) - For the three-entry scenario the call does not
    return the frame the specification describes, with the hours other than
    14 and 15 present as no-data: it returns two rows, and an hour such as 0
    has no row at all. *)
Lemma C4_counterexample :
  fst (calcHourlyMean Timestamp_of_date series_2006_2007
         "2005-10-01" "2006-09-30" (notebook series_2006_2007))
  = Ok [(14, 10%float); (15, 20%float)]
  /\ has_all_24_buckets scenario_frame_as_specified
  /\ lookup 14 scenario_frame_as_specified = Some 10%float
  /\ lookup 15 scenario_frame_as_specified = Some 20%float
  /\ lookup 0 scenario_frame_as_specified = Some PrimFloat.nan
  /\ lookup 0 [(14, 10%float); (15, 20%float)] = None
  /\ length scenario_frame_as_specified = 24%nat
  /\ length [(14, 10%float); (15, 20%float)] = 2%nat
  /\ ~ has_all_24_buckets [(14, 10%float); (15, 20%float)].
Proof.
  repeat (split; [vm_compute; reflexivity|]).
  intros H. vm_compute in H. discriminate.
Qed.

(** C4 (amended) - For the series (2006-01-15 14:00, 10.0),
    (2006-01-15 15:00, 20.0), (2007-01-15 14:00, 30.0) and the interval
    2005-10-01 .. 2006-09-30 the call returns exactly two buckets,
    14 = 10.0 and 15 = 20.0; every other hour of day has no row in the
    result (it is omitted, not present as no-data); and the 2007 entry does
    not contribute: it is not among the included rows and the result is the
    one of the series without it. *)
Theorem C4_scenario_2006_2007 :
  fst (calcHourlyMean Timestamp_of_date series_2006_2007
         "2005-10-01" "2006-09-30" (notebook series_2006_2007))
  = Ok [(14, 10%float); (15, 20%float)]
  /\ (forall h, h <> 14 -> h <> 15 ->
        lookup h [(14, 10%float); (15, 20%float)] = None)
  /\ included (mk_Timestamp 2005 10 1 0 0 0) (mk_Timestamp 2006 9 30 0 0 0)
       series_2006_2007
     = firstn 2 series_2006_2007
  /\ fst (calcHourlyMean Timestamp_of_date series_2006_2007
            "2005-10-01" "2006-09-30" (notebook (firstn 2 series_2006_2007)))
     = Ok [(14, 10%float); (15, 20%float)].
Proof.
  split; [vm_compute; reflexivity|].
  split.
  - intros h H14 H15. unfold lookup.
    destruct (Z.eqb 14 h) eqn:E14; [apply Z.eqb_eq in E14; congruence|].
    destruct (Z.eqb 15 h) eqn:E15; [apply Z.eqb_eq in E15; congruence|].
    reflexivity.
  - split; vm_compute; reflexivity.
Qed.




(** C6 - The index-collecting loop is dead: for every input, the function
    with the loop left out (filter, then group) returns what the function
    returns, result and globals alike. *)
Theorem C6_date_use_loop_is_dead pd_Timestamp data s e g :
  calcHourlyMean pd_Timestamp data s e g
  = calcHourlyMean_filter_then_group pd_Timestamp data s e g.
Proof.
  rewrite calcHourlyMean_run, filter_then_group_run. reflexivity.
Qed.

(** ** Permuted series *)

Lemma filter_Permutation {A} (f : A -> bool) (l l' : list A) :
  Permutation l l' -> Permutation (filter f l) (filter f l').
Proof.
  induction 1 as [| x l l' _ IH | x y l | l l' l'' _ IH1 _ IH2]; simpl.
  - constructor.
  - destruct (f x); [constructor|]; exact IH.
  - destruct (f x), (f y); try apply Permutation_refl. apply perm_swap.
  - eapply Permutation_trans; eassumption.
Qed.

Lemma bucket_values_Permutation h (d d' : DataFrame) :
  Permutation d d' -> Permutation (bucket_values h d) (bucket_values h d').
Proof.
  intros H. unfold bucket_values.
  apply Permutation_map. apply filter_Permutation. exact H.
Qed.

Lemma hourly_keys_Permutation (d d' : DataFrame) :
  Permutation d d' ->
  group_keys (map hour (index d)) = group_keys (map hour (index d')).
Proof.
  intros H. apply sorted_same_members; try apply group_keys_sorted.
  intros h. rewrite !hour_key_iff.
  split; intros [r [Hin Hh]]; exists r; split; try exact Hh.
  - eapply Permutation_in; [exact H | exact Hin].
  - eapply Permutation_in; [apply Permutation_sym; exact H | exact Hin].
Qed.

(** C7 (as stated, refuted) - Permuting the series changes the result.
    Listed latest first, the three-entry series of the specification gives an
    empty result instead of the buckets 14 and 15; and three entries that
    share one timestamp, so that both orders are in time order, average to
    0.0 in one order and to 1/3 in the other. *)
Lemma C7_counterexample :
  Permutation series_2006_2007 series_2006_2007_reversed
  /\ fst (calcHourlyMean Timestamp_of_date series_2006_2007
            "2005-10-01" "2006-09-30" (notebook series_2006_2007))
     = Ok [(14, 10%float); (15, 20%float)]
  /\ fst (calcHourlyMean Timestamp_of_date series_2006_2007_reversed
            "2005-10-01" "2006-09-30" (notebook series_2006_2007_reversed))
     = Ok []
  /\ ~ order_independent Timestamp_of_date
         series_2006_2007 series_2006_2007_reversed "2005-10-01" "2006-09-30"
  /\ Permutation series_tied series_tied_permuted
  /\ TimeSeries series_tied
  /\ TimeSeries series_tied_permuted
  /\ fst (calcHourlyMean Timestamp_of_date series_tied
            "2005-10-01" "2006-09-30" (notebook series_tied))
     = Ok [(14, 0%float)]
  /\ fst (calcHourlyMean Timestamp_of_date series_tied_permuted
            "2005-10-01" "2006-09-30" (notebook series_tied_permuted))
     = Ok [(14, PrimFloat.div 1%float 3%float)]
  /\ ~ order_independent Timestamp_of_date
         series_tied series_tied_permuted "2005-10-01" "2006-09-30".
Proof.
  split; [apply Permutation_rev|].
  split; [vm_compute; reflexivity|].
  split; [vm_compute; reflexivity|].
  split; [intros H; vm_compute in H; discriminate|].
  split; [apply perm_skip, perm_swap|].
  split; [reflexivity|].
  split; [reflexivity|].
  split; [vm_compute; reflexivity|].
  split; [vm_compute; reflexivity|].
  intros H. unfold order_independent in H. vm_compute in H.
  apply (f_equal (fun r : Result HourlyFrame =>
                    match r with
                    | Ok ((_, v) :: _) => PrimFloat.eqb v 0%float
                    | _ => false
                    end)) in H.
  vm_compute in H. discriminate.
Qed.

(** C8 - A call has no side effect: whatever its arguments and whether it
    returns or raises, the module-level names (the frame [df] with every
    timestamp and value among them) are after the call what they were before
    it; so a call made after another one returns what it returns when made
    alone, in either order, and a repeated call returns the same result. *)
Theorem C8_no_side_effects pd_Timestamp data s e data' s' e' g :
  snd (calcHourlyMean pd_Timestamp data s e g) = g
  /\ df (snd (calcHourlyMean pd_Timestamp data s e g)) = df g
  /\ fst (calcHourlyMean pd_Timestamp data' s' e'
            (snd (calcHourlyMean pd_Timestamp data s e g)))
     = fst (calcHourlyMean pd_Timestamp data' s' e' g)
  /\ fst (calcHourlyMean pd_Timestamp data s e
            (snd (calcHourlyMean pd_Timestamp data' s' e' g)))
     = fst (calcHourlyMean pd_Timestamp data s e g)
  /\ calcHourlyMean pd_Timestamp data s e
       (snd (calcHourlyMean pd_Timestamp data s e g))
     = calcHourlyMean pd_Timestamp data s e g.
Proof.
  assert (Hframe : forall d a b, snd (calcHourlyMean pd_Timestamp d a b g) = g).
  { intros d a b. rewrite calcHourlyMean_run. reflexivity. }
  rewrite !Hframe. repeat split.
Qed.

(** C9 - No validation of the interval: for [start > end] on a series in
    time order the call raises nothing; no entry satisfies the filter, and
    the result is the frame with no bucket. *)
Theorem C9_malformed_interval_not_rejected pd_Timestamp data s e g ds de :
  TimeSeries (df g) ->
  pd_Timestamp s = Some ds ->
  pd_Timestamp e = Some de ->
  de < ds ->
  included ds de (df g) = []
  /\ calcHourlyMean pd_Timestamp data s e g = (Ok [], g).
Proof.
  intros Hs Hds Hde Hlt.
  assert (Hnone : included ds de (df g) = []).
  { apply included_none. apply Forall_forall. intros r _.
    unfold in_interval. apply andb_false_iff.
    destruct (Z_lt_le_dec (row_time r) ds) as [H | H].
    - left. apply Z.leb_gt. exact H.
    - right. apply Z.leb_gt. lia. }
  split; [exact Hnone|].
  rewrite (calcHourlyMean_sorted _ data _ _ _ _ _ Hs Hds Hde), Hnone.
  reflexivity.
Qed.

Lemma C9_malformed_interval_not_rejected_witness :
  calcHourlyMean Timestamp_of_date series_2006_2007 "2006-09-30" "2005-10-01"
    (notebook series_2006_2007)
  = (Ok [], notebook series_2006_2007).
Proof.
  refine (proj2 (C9_malformed_interval_not_rejected Timestamp_of_date
                   series_2006_2007 "2006-09-30" "2005-10-01"
                   (notebook series_2006_2007)
                   (mk_Timestamp 2006 9 30 0 0 0) (mk_Timestamp 2005 10 1 0 0 0)
                   _ _ _ _)).
  - reflexivity.
  - reflexivity.
  - reflexivity.
  - reflexivity.
Defined.

(** C10 - On a series in time order the bucket keys of the result are
    exactly the distinct hours of day of the included entries, in ascending
    order; an hour with no included entry has no row in the result; and when
    no entry is included the call returns the empty frame and raises
    nothing. *)
Theorem C10_keys_are_hours_of_included pd_Timestamp data s e g ds de :
  TimeSeries (df g) ->
  pd_Timestamp s = Some ds ->
  pd_Timestamp e = Some de ->
  exists res,
    calcHourlyMean pd_Timestamp data s e g = (Ok res, g)
    /\ map fst res = group_keys (map hour (index (included ds de (df g))))
    /\ StronglySorted Z.lt (map fst res)
    /\ NoDup (map fst res)
    /\ (forall h, In h (map fst res)
                  <-> exists r, In r (included ds de (df g))
                                /\ hour (row_time r) = h)
    /\ (forall h, ~ (exists r, In r (included ds de (df g))
                               /\ hour (row_time r) = h) ->
                  lookup h res = None)
    /\ (included ds de (df g) = [] -> res = []).
Proof.
  intros Hs Hds Hde.
  exists (hourly_mean (included ds de (df g))).
  split; [apply calcHourlyMean_sorted; assumption|].
  rewrite hourly_mean_keys.
  split; [reflexivity|].
  split; [apply group_keys_sorted|].
  split; [apply sorted_NoDup, group_keys_sorted|].
  split; [intros h; apply hour_key_iff|].
  split; [intros h Hh; apply hourly_mean_absent; exact Hh|].
  intros Hnil. rewrite Hnil. reflexivity.
Qed.

Lemma C10_keys_are_hours_of_included_witness :
  exists res,
    calcHourlyMean Timestamp_of_date series_2006_2007 "2005-10-01" "2006-09-30"
      (notebook series_2006_2007)
    = (Ok res, notebook series_2006_2007)
    /\ map fst res = [14; 15].
Proof.
  destruct (C10_keys_are_hours_of_included Timestamp_of_date series_2006_2007
              "2005-10-01" "2006-09-30" (notebook series_2006_2007)
              (mk_Timestamp 2005 10 1 0 0 0) (mk_Timestamp 2006 9 30 0 0 0)
              eq_refl eq_refl eq_refl)
    as [res [Hres [Hkeys _]]].
  exists res. split; [exact Hres|].
  rewrite Hkeys. vm_compute. reflexivity.
Defined.

(* ================================================================= *)
(** * Further properties of the notebook's code *)

Local Open Scope list_scope.
Local Open Scope Z_scope.

(** ** What a call can raise *)

Lemma get_slice_bound_raises idx label side x :
  get_slice_bound idx label side = Raise x ->
  x = KeyError /\ is_monotonic_increasing idx = false.
Proof.
  intros H. split.
  - unfold get_slice_bound in H.
    destruct (positions_from 0 label idx) as [|p ps].
    + destruct (is_monotonic_increasing idx); [discriminate|].
      destruct (is_monotonic_decreasing idx); [discriminate|].
      inversion H. reflexivity.
    + destruct (contiguous p ps); [discriminate|].
      inversion H. reflexivity.
  - destruct (is_monotonic_increasing idx) eqn:Hs; [|reflexivity].
    rewrite (get_slice_bound_sorted idx label side Hs) in H. discriminate.
Qed.




(** ** Slicing a frame whose index is not in ascending order *)

Lemma positions_absent label :
  forall l i, ~ In label l -> positions_from i label l = [].
Proof.
  induction l as [|t l IH]; intros i Hn; [reflexivity|].
  simpl. destruct (t =? label) eqn:Ht.
  - apply Z.eqb_eq in Ht. exfalso. apply Hn. left. exact Ht.
  - apply IH. intros H. apply Hn. right. exact H.
Qed.

Lemma get_slice_bound_unordered idx label side :
  is_monotonic_increasing idx = false ->
  is_monotonic_decreasing idx = false ->
  ~ In label idx ->
  get_slice_bound idx label side = Raise KeyError.
Proof.
  intros Hi Hd Hn. unfold get_slice_bound.
  rewrite (positions_absent label idx 0 Hn), Hi, Hd. reflexivity.
Qed.

(** X3 - On a frame whose index is neither ascending nor descending, a call
    whose start or end date is not itself a label of the index raises
    [KeyError]: [df[date_start:date_end]] is not a filter there. *)
Theorem calcHourlyMean_unordered_KeyError pd_Timestamp data s e g ds de :
  is_monotonic_increasing (index (df g)) = false ->
  is_monotonic_decreasing (index (df g)) = false ->
  pd_Timestamp s = Some ds ->
  pd_Timestamp e = Some de ->
  ~ In ds (index (df g)) \/ ~ In de (index (df g)) ->
  calcHourlyMean pd_Timestamp data s e g = (Raise KeyError, g).
Proof.
  intros Hi Hd Hds Hde Habs.
  rewrite calcHourlyMean_run. unfold calcHourlyMean_result.
  rewrite Hds, Hde. f_equal.
  assert (Hsl : getitem_slice (df g) ds de = Raise KeyError).
  { unfold getitem_slice.
    destruct (get_slice_bound (index (df g)) ds SideLeft) as [lo|y] eqn:Hlo.
    - destruct Habs as [Hn | Hn].
      + rewrite (get_slice_bound_unordered _ _ _ Hi Hd Hn) in Hlo. discriminate.
      + rewrite (get_slice_bound_unordered _ _ _ Hi Hd Hn). reflexivity.
    - destruct (get_slice_bound_raises _ _ _ _ Hlo) as [-> _]. reflexivity. }
  rewrite Hsl. reflexivity.
Qed.

Lemma calcHourlyMean_unordered_KeyError_witness :
  calcHourlyMean Timestamp_of_date [] "2005-10-01" "2006-09-30"
    (notebook series_unordered)
  = (Raise KeyError, notebook series_unordered).
Proof.
  refine (calcHourlyMean_unordered_KeyError Timestamp_of_date []
            "2005-10-01" "2006-09-30" (notebook series_unordered)
            (mk_Timestamp 2005 10 1 0 0 0) (mk_Timestamp 2006 9 30 0 0 0)
            _ _ _ _ _).
  - reflexivity.
  - reflexivity.
  - reflexivity.
  - reflexivity.
  - left. vm_compute. intros H.
    repeat (destruct H as [H | H]; [discriminate|]). exact H.
Defined.

(** *** Descending index *)

Lemma monotonic_dec_cons x l :
  is_monotonic_decreasing (x :: l) = true ->
  Forall (fun y => y <= x) l /\ is_monotonic_decreasing l = true.
Proof.
  revert x. induction l as [|y l IH]; intros x H.
  - split; [constructor | reflexivity].
  - change ((y <=? x) && is_monotonic_decreasing (y :: l) = true) in H.
    apply andb_true_iff in H. destruct H as [Hyx Hs].
    apply Z.leb_le in Hyx.
    destruct (IH y Hs) as [Hall _].
    split; [|exact Hs].
    constructor; [exact Hyx|].
    eapply Forall_impl; [|exact Hall]. simpl. intros z Hz. lia.
Qed.

Lemma count_labels_cons f t l :
  count_labels f (t :: l)
  = ((if f t then 1 else 0) + count_labels f l)%nat.
Proof. unfold count_labels. simpl. destruct (f t); reflexivity. Qed.

Lemma count_labels_none f l :
  Forall (fun t => f t = false) l -> count_labels f l = 0%nat.
Proof.
  induction 1 as [|t l Ht _ IH]; [reflexivity|].
  rewrite count_labels_cons, Ht, IH. reflexivity.
Qed.

Lemma count_labels_all f l :
  Forall (fun t => f t = true) l -> count_labels f l = length l.
Proof.
  induction 1 as [|t l Ht _ IH]; [reflexivity|].
  rewrite count_labels_cons, Ht, IH. reflexivity.
Qed.

(** Every label is below, equal to or above a given one. *)
Lemma count_labels_trichotomy x l :
  Nat.add (Nat.add (count_labels (fun t => t <? x) l)
                   (count_labels (fun t => t =? x) l))
          (count_labels (fun t => x <? t) l)
  = length l
  /\ count_labels (fun t => t <=? x) l
     = Nat.add (count_labels (fun t => t <? x) l)
               (count_labels (fun t => t =? x) l).
Proof.
  induction l as [|t l [IH1 IH2]]; [split; reflexivity|].
  rewrite !count_labels_cons. simpl length.
  destruct (Z.compare_spec t x) as [E | L | G].
  - subst t. rewrite Z.ltb_irrefl, Z.eqb_refl, Z.leb_refl. lia.
  - assert (H1 : (t <? x) = true) by (apply Z.ltb_lt; lia).
    assert (H2 : (t =? x) = false) by (apply Z.eqb_neq; lia).
    assert (H3 : (x <? t) = false) by (apply Z.ltb_ge; lia).
    assert (H4 : (t <=? x) = true) by (apply Z.leb_le; lia).
    rewrite H1, H2, H3, H4. lia.
  - assert (H1 : (t <? x) = false) by (apply Z.ltb_ge; lia).
    assert (H2 : (t =? x) = false) by (apply Z.eqb_neq; lia).
    assert (H3 : (x <? t) = true) by (apply Z.ltb_lt; lia).
    assert (H4 : (t <=? x) = false) by (apply Z.leb_gt; lia).
    rewrite H1, H2, H3, H4. lia.
Qed.

(** In a descending index the occurrences of a label come after the labels
    above it, in one run. *)
Lemma positions_descending label :
  forall l i,
    is_monotonic_decreasing l = true ->
    positions_from i label l
    = seq (i + count_labels (fun t => label <? t) l)
          (count_labels (fun t => t =? label) l).
Proof.
  induction l as [|t l IH]; intros i Hs; [reflexivity|].
  destruct (monotonic_dec_cons _ _ Hs) as [Hall Hs'].
  rewrite !count_labels_cons. simpl positions_from.
  destruct (Z.compare_spec t label) as [Heq | Hlt | Hgt].
  - subst t. rewrite Z.eqb_refl, Z.ltb_irrefl, (IH (S i) Hs').
    assert (H0 : count_labels (fun t => label <? t) l = 0%nat).
    { apply count_labels_none. eapply Forall_impl; [|exact Hall].
      simpl. intros z Hz. apply Z.ltb_ge. lia. }
    rewrite H0, !Nat.add_0_r. reflexivity.
  - assert (H1 : (t =? label) = false) by (apply Z.eqb_neq; lia).
    assert (H2 : (label <? t) = false) by (apply Z.ltb_ge; lia).
    rewrite H1, H2, (IH (S i) Hs').
    assert (HG : count_labels (fun t => label <? t) l = 0%nat).
    { apply count_labels_none. eapply Forall_impl; [|exact Hall].
      simpl. intros z Hz. apply Z.ltb_ge. lia. }
    assert (HE : count_labels (fun t => t =? label) l = 0%nat).
    { apply count_labels_none. eapply Forall_impl; [|exact Hall].
      simpl. intros z Hz. apply Z.eqb_neq. lia. }
    rewrite HG, HE. reflexivity.
  - assert (H1 : (t =? label) = false) by (apply Z.eqb_neq; lia).
    assert (H2 : (label <? t) = true) by (apply Z.ltb_lt; lia).
    rewrite H1, H2, (IH (S i) Hs'). f_equal. lia.
Qed.

Lemma searchsorted_app_all side label a b :
  Forall (fun t => below side t label = true) a ->
  searchsorted (a ++ b) label side
  = (length a + searchsorted b label side)%nat.
Proof.
  induction 1 as [|t a Ht _ IH]; [reflexivity|].
  simpl. rewrite Ht, IH. reflexivity.
Qed.

Lemma searchsorted_app_stop side label t a :
  below side t label = false ->
  searchsorted (a ++ [t]) label side = searchsorted a label side.
Proof.
  intros Ht. induction a as [|u a IH]; simpl.
  - rewrite Ht. reflexivity.
  - rewrite IH. reflexivity.
Qed.

Lemma below_downward side label t u :
  u <= t -> below side t label = true -> below side u label = true.
Proof.
  intros Hle. destruct side; simpl; intros H.
  - apply Z.ltb_lt in H. apply Z.ltb_lt. lia.
  - apply Z.leb_le in H. apply Z.leb_le. lia.
Qed.

(** Reading a descending index backwards, [searchsorted] counts the labels
    below the one it places. *)
Lemma searchsorted_rev_descending side label :
  forall l,
    is_monotonic_decreasing l = true ->
    searchsorted (rev l) label side
    = count_labels (fun t => below side t label) l.
Proof.
  induction l as [|t l IH]; intros Hs; [reflexivity|].
  destruct (monotonic_dec_cons _ _ Hs) as [Hall Hs'].
  simpl rev. rewrite count_labels_cons.
  destruct (below side t label) eqn:Ht.
  - assert (Hl : Forall (fun u => below side u label = true) l).
    { eapply Forall_impl; [|exact Hall]. simpl. intros u Hu.
      eapply below_downward; eassumption. }
    rewrite searchsorted_app_all.
    2:{ apply Forall_rev. exact Hl. }
    simpl. rewrite Ht, length_rev, (count_labels_all _ _ Hl). lia.
  - rewrite (searchsorted_app_stop _ _ _ _ Ht). apply IH. exact Hs'.
Qed.

(** On a descending index the left bound of a label is the number of labels
    above it and the right bound the number of labels not below it, whether
    the index holds the label or not. *)
Lemma get_slice_bound_descending idx label :
  is_monotonic_increasing idx = false ->
  is_monotonic_decreasing idx = true ->
  get_slice_bound idx label SideLeft
  = Ok (count_labels (fun t => label <? t) idx)
  /\ get_slice_bound idx label SideRight
     = Ok (Nat.add (count_labels (fun t => label <? t) idx)
                   (count_labels (fun t => t =? label) idx)).
Proof.
  intros Hi Hd. unfold get_slice_bound.
  rewrite (positions_descending label idx 0 Hd). simpl (0 + _)%nat.
  destruct (count_labels_trichotomy label idx) as [Hsum Hle].
  destruct (count_labels (fun t => t =? label) idx) as [|n] eqn:HE.
  - simpl seq. cbv iota. rewrite Hi, Hd.
    rewrite !(searchsorted_rev_descending _ _ _ Hd). simpl below.
    split; f_equal; lia.
  - simpl seq. cbv iota. rewrite contiguous_seq, last_seq.
    split; f_equal; lia.
Qed.

(** The rows a slice takes from a descending frame are those between the two
    bounds read the other way round. *)
Lemma slice_descending a b (d : DataFrame) :
  is_monotonic_decreasing (index d) = true ->
  firstn (Nat.sub (Nat.add (count_labels (fun t => b <? t) (index d))
                           (count_labels (fun t => t =? b) (index d)))
                  (count_labels (fun t => a <? t) (index d)))
         (skipn (count_labels (fun t => a <? t) (index d)) d)
  = included b a d.
Proof.
  induction d as [|r d IH]; intros Hs; [reflexivity|].
  change (index (r :: d)) with (row_time r :: index d) in *.
  destruct (monotonic_dec_cons _ _ Hs) as [Hall Hs'].
  specialize (IH Hs').
  assert (Hrows : Forall (fun r' => row_time r' <= row_time r) d).
  { unfold index in Hall. rewrite Forall_map in Hall. exact Hall. }
  rewrite !count_labels_cons.
  unfold included in *. simpl filter. unfold in_interval at 1.
  destruct (Z_lt_le_dec (row_time r) b) as [Hb | Hb].
  - (* the row and all after it are below [b] *)
    assert (H1 : (b <? row_time r) = false) by (apply Z.ltb_ge; lia).
    assert (H2 : (row_time r =? b) = false) by (apply Z.eqb_neq; lia).
    assert (H3 : (b <=? row_time r) = false) by (apply Z.leb_gt; lia).
    assert (HG : count_labels (fun t => b <? t) (index d) = 0%nat).
    { apply count_labels_none. unfold index. rewrite Forall_map.
      eapply Forall_impl; [|exact Hrows]. simpl. intros r' Hr'.
      apply Z.ltb_ge. lia. }
    assert (HE : count_labels (fun t => t =? b) (index d) = 0%nat).
    { apply count_labels_none. unfold index. rewrite Forall_map.
      eapply Forall_impl; [|exact Hrows]. simpl. intros r' Hr'.
      apply Z.eqb_neq. lia. }
    rewrite H1, H2, H3, HG, HE. simpl.
    symmetry. apply included_none.
    eapply Forall_impl; [|exact Hrows]. simpl. intros r' Hr'.
    unfold in_interval. apply andb_false_iff. left. apply Z.leb_gt. lia.
  - assert (H3 : (b <=? row_time r) = true) by (apply Z.leb_le; lia).
    rewrite H3. simpl andb.
    assert (Hcount :
      Nat.add (Nat.add (if b <? row_time r then 1%nat else 0%nat)
                       (count_labels (fun t => b <? t) (index d)))
              (Nat.add (if row_time r =? b then 1%nat else 0%nat)
                       (count_labels (fun t => t =? b) (index d)))
      = S (Nat.add (count_labels (fun t => b <? t) (index d))
                   (count_labels (fun t => t =? b) (index d)))).
    { destruct (Z.eq_dec (row_time r) b) as [E | N].
      - rewrite E, Z.ltb_irrefl, Z.eqb_refl. lia.
      - assert (H1 : (b <? row_time r) = true) by (apply Z.ltb_lt; lia).
        assert (H2 : (row_time r =? b) = false) by (apply Z.eqb_neq; lia).
        rewrite H1, H2. lia. }
    rewrite Hcount.
    destruct (Z_lt_le_dec a (row_time r)) as [Ha | Ha].
    + assert (H4 : (a <? row_time r) = true) by (apply Z.ltb_lt; lia).
      assert (H5 : (row_time r <=? a) = false) by (apply Z.leb_gt; lia).
      rewrite H4, H5. simpl. exact IH.
    + assert (H4 : (a <? row_time r) = false) by (apply Z.ltb_ge; lia).
      assert (H5 : (row_time r <=? a) = true) by (apply Z.leb_le; lia).
      assert (HG : count_labels (fun t => a <? t) (index d) = 0%nat).
      { apply count_labels_none. unfold index. rewrite Forall_map.
        eapply Forall_impl; [|exact Hrows]. simpl. intros r' Hr'.
        apply Z.ltb_ge. lia. }
      rewrite H4, H5, HG. rewrite HG in IH. simpl in IH.
      rewrite Nat.sub_0_r in IH. simpl. f_equal. exact IH.
Qed.

Lemma getitem_slice_descending a b (d : DataFrame) :
  is_monotonic_increasing (index d) = false ->
  is_monotonic_decreasing (index d) = true ->
  getitem_slice d a b = Ok (included b a d).
Proof.
  intros Hi Hd. unfold getitem_slice.
  destruct (get_slice_bound_descending (index d) a Hi Hd) as [HL _].
  destruct (get_slice_bound_descending (index d) b Hi Hd) as [_ HR].
  rewrite HL, HR, (slice_descending a b d Hd). reflexivity.
Qed.

(** X4 - On a frame listed latest first (index descending and not
    ascending) a call raises nothing and selects the entries with
    [end <= t <= start], the bounds read the other way round: for
    [start < end] that is no entry at all, and the call returns the empty
    frame however many entries lie between the two dates. *)
Theorem calcHourlyMean_descending pd_Timestamp data s e g ds de :
  is_monotonic_increasing (index (df g)) = false ->
  is_monotonic_decreasing (index (df g)) = true ->
  pd_Timestamp s = Some ds ->
  pd_Timestamp e = Some de ->
  calcHourlyMean pd_Timestamp data s e g
  = (Ok (hourly_mean (included de ds (df g))), g)
  /\ (ds < de -> calcHourlyMean pd_Timestamp data s e g = (Ok [], g)).
Proof.
  intros Hi Hd Hds Hde.
  assert (Hrun : calcHourlyMean pd_Timestamp data s e g
                 = (Ok (hourly_mean (included de ds (df g))), g)).
  { rewrite calcHourlyMean_run. unfold calcHourlyMean_result.
    rewrite Hds, Hde, (getitem_slice_descending ds de (df g) Hi Hd).
    reflexivity. }
  split; [exact Hrun|].
  intros Hlt. rewrite Hrun.
  assert (Hnone : included de ds (df g) = []).
  { apply included_none. apply Forall_forall. intros r _.
    unfold in_interval. apply andb_false_iff.
    destruct (Z_lt_le_dec (row_time r) de) as [H | H].
    - left. apply Z.leb_gt. exact H.
    - right. apply Z.leb_gt. lia. }
  rewrite Hnone. reflexivity.
Qed.

Lemma calcHourlyMean_descending_witness :
  calcHourlyMean Timestamp_of_date [] "2005-10-01" "2006-09-30"
    (notebook series_2006_2007_reversed)
  = (Ok [], notebook series_2006_2007_reversed).
Proof.
  refine (proj2 (calcHourlyMean_descending Timestamp_of_date []
                   "2005-10-01" "2006-09-30"
                   (notebook series_2006_2007_reversed)
                   (mk_Timestamp 2005 10 1 0 0 0) (mk_Timestamp 2006 9 30 0 0 0)
                   _ _ _ _) _).
  - reflexivity.
  - reflexivity.
  - reflexivity.
  - reflexivity.
  - reflexivity.
Defined.

(** ** What a slice can select, whatever the order of the index *)

Lemma getitem_slice_run (d : DataFrame) a b sel :
  getitem_slice d a b = Ok sel ->
  exists pre post, d = pre ++ sel ++ post.
Proof.
  unfold getitem_slice. intros H.
  destruct (get_slice_bound (index d) a SideLeft) as [lo|x]; [|discriminate].
  destruct (get_slice_bound (index d) b SideRight) as [hi|x]; [|discriminate].
  inversion H; subst.
  exists (firstn lo d), (skipn (hi - lo) (skipn lo d)).
  rewrite (firstn_skipn (hi - lo) (skipn lo d)).
  symmetry. apply firstn_skipn.
Qed.

(** X5 - Whenever a call returns, on a frame in any order, its result is
    the hourly mean of one run of consecutive rows of [df]: the slice never
    reorders, repeats or skips rows inside what it selects. *)
Theorem calcHourlyMean_averages_a_run pd_Timestamp data s e g res :
  fst (calcHourlyMean pd_Timestamp data s e g) = Ok res ->
  exists pre selected post,
    df g = pre ++ selected ++ post /\ res = hourly_mean selected.
Proof.
  rewrite calcHourlyMean_run. simpl fst. unfold calcHourlyMean_result.
  destruct (pd_Timestamp s) as [ds|]; [|discriminate].
  destruct (pd_Timestamp e) as [de|]; [|discriminate].
  destruct (getitem_slice (df g) ds de) as [sel|x] eqn:Hsl; [|discriminate].
  intros H. inversion H; subst.
  destruct (getitem_slice_run _ _ _ _ Hsl) as [pre [post Hd]].
  exists pre, sel, post. split; [exact Hd | reflexivity].
Qed.

Lemma calcHourlyMean_averages_a_run_witness :
  exists pre selected post,
    series_2006_2007 = pre ++ selected ++ post
    /\ [(14, 10%float); (15, 20%float)] = hourly_mean selected.
Proof.
  refine (calcHourlyMean_averages_a_run Timestamp_of_date []
            "2005-10-01" "2006-09-30" (notebook series_2006_2007)
            [(14, 10%float); (15, 20%float)] _).
  vm_compute. reflexivity.
Defined.

(** ** What the index-collecting loop computes *)

Lemma date_use_loop_filter ds de g :
  forall range date_use,
    (forall i, In i range -> (i < length (index (df g)))%nat) ->
    date_use_loop range ds de date_use g
    = (Ok (date_use
           ++ filter (fun i =>
                        match nth_error (index (df g)) i with
                        | Some t => (ds <=? t) && (t <=? de)
                        | None => false
                        end) range),
       g).
Proof.
  induction range as [|i range IH]; intros acc Hin.
  - simpl. rewrite app_nil_r. reflexivity.
  - assert (Hi : (i < length (index (df g)))%nat) by (apply Hin; left; reflexivity).
    assert (Hrest : forall j, In j range -> (j < length (index (df g)))%nat)
      by (intros j Hj; apply Hin; right; exact Hj).
    destruct (nth_error (index (df g)) i) as [t|] eqn:Ht.
    2:{ apply nth_error_None in Ht. lia. }
    simpl date_use_loop. simpl filter. rewrite Ht.
    rewrite (bind_ok _ _ _ _ _ (index_at_ok _ _ _ Ht)).
    destruct (ds <=? t).
    + rewrite (bind_ok _ _ _ _ _ (index_at_ok _ _ _ Ht)).
      destruct (t <=? de); simpl andb; cbv iota.
      * rewrite (IH _ Hrest), <- app_assoc. reflexivity.
      * apply IH. exact Hrest.
    + simpl andb. cbv iota. apply IH. exact Hrest.
Qed.

Lemma rows_at_positions ds de :
  forall (d pre : DataFrame),
    map (nth_error (pre ++ d))
        (filter (fun i =>
                   match nth_error (index (pre ++ d)) i with
                   | Some t => (ds <=? t) && (t <=? de)
                   | None => false
                   end)
                (seq (length pre) (length d)))
    = map Some (included ds de d).
Proof.
  induction d as [|r d IH]; intros pre; [reflexivity|].
  simpl length. simpl seq. simpl filter.
  assert (Hr : nth_error (pre ++ r :: d) (length pre) = Some r).
  { rewrite nth_error_app2 by lia. rewrite Nat.sub_diag. reflexivity. }
  assert (Ht : nth_error (index (pre ++ r :: d)) (length pre) = Some (row_time r)).
  { unfold index. rewrite nth_error_map, Hr. reflexivity. }
  rewrite Ht.
  assert (Hshift : pre ++ r :: d = (pre ++ [r]) ++ d)
    by (rewrite <- app_assoc; reflexivity).
  assert (Hlen : S (length pre) = length (pre ++ [r]))
    by (rewrite length_app; simpl; lia).
  unfold included. simpl filter. unfold in_interval at 1.
  destruct ((ds <=? row_time r) && (row_time r <=? de)).
  - simpl map. rewrite Hr. f_equal.
    rewrite Hshift, Hlen. apply IH.
  - rewrite Hshift, Hlen. apply IH.
Qed.

(** X6 - On every frame, in order or not, the loop of [calcHourlyMean]
    ends without an exception and leaves in [date_use] the positions, in
    ascending order, of the labels with [date_start <= t <= date_end]; the
    rows at these positions are the entries inside the closed interval. *)
Theorem date_use_loop_positions ds de g :
  date_use_loop (seq 0 (length (index (df g)))) ds de [] g
  = (Ok (positions_in_interval ds de (index (df g))), g)
  /\ map (nth_error (df g)) (positions_in_interval ds de (index (df g)))
     = map Some (included ds de (df g)).
Proof.
  split.
  - rewrite date_use_loop_filter.
    + reflexivity.
    + intros i Hi. apply in_seq in Hi. lia.
  - unfold positions_in_interval.
    assert (Hlen : length (index (df g)) = length (df g))
      by (unfold index; apply length_map).
    rewrite Hlen. exact (rows_at_positions ds de (df g) []).
Qed.

(** ** Restricting and shifting the frame *)

Lemma monotonic_iff_sorted l :
  is_monotonic_increasing l = true <-> StronglySorted Z.le l.
Proof.
  split.
  - induction l as [|x l IH]; intros H; [constructor|].
    destruct (monotonic_cons _ _ H) as [Hall Hs].
    constructor; [apply IH; exact Hs | exact Hall].
  - induction l as [|x l IH]; intros H; [reflexivity|].
    apply StronglySorted_inv in H. destruct H as [Hs Hall].
    destruct l as [|y l]; [reflexivity|].
    change ((x <=? y) && is_monotonic_increasing (y :: l) = true).
    apply andb_true_iff. split; [|apply IH; exact Hs].
    apply Z.leb_le. inversion Hall; assumption.
Qed.

Lemma sorted_filter (f : Z -> bool) l :
  StronglySorted Z.le l -> StronglySorted Z.le (filter f l).
Proof.
  induction 1 as [|x l Hs IH Hall]; simpl; [constructor|].
  destruct (f x); [|exact IH].
  constructor; [exact IH|].
  rewrite Forall_forall in *. intros y Hy. apply Hall.
  apply filter_In in Hy. tauto.
Qed.

Lemma index_included a b (d : DataFrame) :
  index (included a b d)
  = filter (fun t => (a <=? t) && (t <=? b)) (index d).
Proof.
  unfold index, included. induction d as [|r d IH]; [reflexivity|].
  simpl. unfold in_interval at 1.
  destruct ((a <=? row_time r) && (row_time r <=? b)); simpl; rewrite IH;
    reflexivity.
Qed.

Lemma TimeSeries_included a b (d : DataFrame) :
  TimeSeries d -> TimeSeries (included a b d).
Proof.
  unfold TimeSeries. intros H.
  rewrite index_included. apply monotonic_iff_sorted, sorted_filter.
  apply monotonic_iff_sorted. exact H.
Qed.

Lemma included_included a b a' b' (d : DataFrame) :
  a' <= a -> b <= b' ->
  included a b (included a' b' d) = included a b d.
Proof.
  intros Ha Hb. unfold included.
  induction d as [|r d IH]; [reflexivity|].
  simpl. destruct (in_interval a' b' r) eqn:H'.
  - simpl. rewrite IH. reflexivity.
  - assert (H : in_interval a b r = false).
    { unfold in_interval in *. apply andb_false_iff in H'.
      apply andb_false_iff. destruct H' as [H' | H'].
      - left. apply Z.leb_gt in H'. apply Z.leb_gt. lia.
      - right. apply Z.leb_gt in H'. apply Z.leb_gt. lia. }
    rewrite H. exact IH.
Qed.

(** X7 - On a series in time order, entries outside the interval have no
    influence on the result: dropping from [df] beforehand everything
    outside a closed interval that contains [[start, end]] (the interval
    itself, for one) leaves the result of the call unchanged. *)
Theorem calcHourlyMean_on_restricted_frame pd_Timestamp data s e g ds de a b :
  TimeSeries (df g) ->
  pd_Timestamp s = Some ds ->
  pd_Timestamp e = Some de ->
  a <= ds ->
  de <= b ->
  fst (calcHourlyMean pd_Timestamp data s e (with_df g (included a b (df g))))
  = fst (calcHourlyMean pd_Timestamp data s e g).
Proof.
  intros Hs Hds Hde Ha Hb.
  assert (Hs' : TimeSeries (df (with_df g (included a b (df g)))))
    by (simpl; apply TimeSeries_included; exact Hs).
  rewrite (calcHourlyMean_sorted _ data s e _ ds de Hs' Hds Hde).
  rewrite (calcHourlyMean_sorted _ data s e _ ds de Hs Hds Hde).
  simpl. rewrite (included_included ds de a b (df g) Ha Hb). reflexivity.
Qed.

Lemma calcHourlyMean_on_restricted_frame_witness :
  fst (calcHourlyMean Timestamp_of_date [] "2005-10-01" "2006-09-30"
         (with_df (notebook series_2006_2007)
            (included (mk_Timestamp 2005 10 1 0 0 0)
                      (mk_Timestamp 2006 9 30 0 0 0) series_2006_2007)))
  = fst (calcHourlyMean Timestamp_of_date [] "2005-10-01" "2006-09-30"
           (notebook series_2006_2007)).
Proof.
  refine (calcHourlyMean_on_restricted_frame Timestamp_of_date []
            "2005-10-01" "2006-09-30" (notebook series_2006_2007)
            (mk_Timestamp 2005 10 1 0 0 0) (mk_Timestamp 2006 9 30 0 0 0)
            (mk_Timestamp 2005 10 1 0 0 0) (mk_Timestamp 2006 9 30 0 0 0)
            _ _ _ _ _).
  - reflexivity.
  - reflexivity.
  - reflexivity.
  - vm_compute. discriminate.
  - vm_compute. discriminate.
Defined.

Lemma hour_shift_days t k : hour (t + k * ns_per_day) = hour t.
Proof.
  unfold hour, ns_per_day.
  replace (t + k * (24 * ns_per_hour)) with (t + (k * 24) * ns_per_hour) by ring.
  rewrite Z.div_add by (unfold ns_per_hour, ns_per_second; lia).
  apply Z_mod_plus_full.
Qed.

Lemma index_shift delta (d : DataFrame) :
  index (shift_index delta d) = map (fun t => t + delta) (index d).
Proof. unfold index, shift_index. rewrite !map_map. reflexivity. Qed.

Lemma TimeSeries_shift delta (d : DataFrame) :
  TimeSeries d -> TimeSeries (shift_index delta d).
Proof.
  unfold TimeSeries. rewrite index_shift.
  generalize (index d). intros l H.
  apply monotonic_iff_sorted in H. apply monotonic_iff_sorted.
  induction H as [|x l Hs IH Hall]; simpl; constructor.
  - exact IH.
  - rewrite Forall_map. eapply Forall_impl; [|exact Hall].
    simpl. intros y Hy. lia.
Qed.

Lemma in_interval_shift delta a b r :
  in_interval (a + delta) (b + delta) (mkRow (row_time r + delta) (row_srad r))
  = in_interval a b r.
Proof.
  unfold in_interval. simpl row_time. f_equal.
  - destruct (a <=? row_time r) eqn:E.
    + apply Z.leb_le in E. apply Z.leb_le. lia.
    + apply Z.leb_gt in E. apply Z.leb_gt. lia.
  - destruct (row_time r <=? b) eqn:E.
    + apply Z.leb_le in E. apply Z.leb_le. lia.
    + apply Z.leb_gt in E. apply Z.leb_gt. lia.
Qed.

Lemma included_shift delta a b (d : DataFrame) :
  included (a + delta) (b + delta) (shift_index delta d)
  = shift_index delta (included a b d).
Proof.
  unfold included, shift_index.
  induction d as [|r d IH]; [reflexivity|].
  cbn [map filter]. rewrite in_interval_shift.
  destruct (in_interval a b r); cbn [map]; rewrite IH; reflexivity.
Qed.

Lemma bucket_values_shift_days k h (d : DataFrame) :
  bucket_values h (shift_index (k * ns_per_day) d) = bucket_values h d.
Proof.
  unfold bucket_values, shift_index.
  induction d as [|r d IH]; [reflexivity|].
  cbn [map filter row_time]. rewrite hour_shift_days.
  destruct (hour (row_time r) =? h); cbn [map row_srad]; rewrite IH;
    reflexivity.
Qed.

Lemma hourly_mean_shift_days k (d : DataFrame) :
  hourly_mean (shift_index (k * ns_per_day) d) = hourly_mean d.
Proof.
  unfold hourly_mean.
  assert (Hkeys : map hour (index (shift_index (k * ns_per_day) d))
                  = map hour (index d)).
  { rewrite index_shift, map_map. apply map_ext. intros t.
    apply hour_shift_days. }
  rewrite Hkeys. apply map_ext. intros h.
  rewrite bucket_values_shift_days. reflexivity.
Qed.

(** X8 - The buckets are hours of the day, whatever the date: on a series
    in time order, moving every timestamp of [df] and both ends of the
    interval by the same whole number of days leaves the result of the call
    unchanged. *)
Theorem calcHourlyMean_shift_days pd_Timestamp data s e s' e' g ds de k :
  TimeSeries (df g) ->
  pd_Timestamp s = Some ds ->
  pd_Timestamp e = Some de ->
  pd_Timestamp s' = Some (ds + k * ns_per_day) ->
  pd_Timestamp e' = Some (de + k * ns_per_day) ->
  fst (calcHourlyMean pd_Timestamp data s' e'
         (with_df g (shift_index (k * ns_per_day) (df g))))
  = fst (calcHourlyMean pd_Timestamp data s e g).
Proof.
  intros Hs Hds Hde Hds' Hde'.
  assert (Hs' : TimeSeries (df (with_df g (shift_index (k * ns_per_day) (df g)))))
    by (simpl; apply TimeSeries_shift; exact Hs).
  rewrite (calcHourlyMean_sorted _ data s' e' _ _ _ Hs' Hds' Hde').
  rewrite (calcHourlyMean_sorted _ data s e _ ds de Hs Hds Hde).
  simpl. rewrite included_shift, hourly_mean_shift_days. reflexivity.
Qed.

Lemma calcHourlyMean_shift_days_witness :
  fst (calcHourlyMean Timestamp_of_date [] "2005-10-02" "2006-10-01"
         (with_df (notebook series_2006_2007)
            (shift_index (1 * ns_per_day) series_2006_2007)))
  = fst (calcHourlyMean Timestamp_of_date [] "2005-10-01" "2006-09-30"
           (notebook series_2006_2007)).
Proof.
  refine (calcHourlyMean_shift_days Timestamp_of_date []
            "2005-10-01" "2006-09-30" "2005-10-02" "2006-10-01"
            (notebook series_2006_2007)
            (mk_Timestamp 2005 10 1 0 0 0) (mk_Timestamp 2006 9 30 0 0 0) 1
            _ _ _ _ _).
  - reflexivity.
  - reflexivity.
  - reflexivity.
  - reflexivity.
  - reflexivity.
Defined.

(** ** Every selected entry is in one bucket *)







(** ** The cell that extracts the three periods *)

(** Replaces the timestamps of calendar dates by their values. *)
Ltac eval_dates :=
  repeat match goal with
    | |- context [mk_Timestamp ?y ?m ?d ?hh ?mm ?ss] =>
        let v := eval vm_compute in (mk_Timestamp y m d hh mm ss) in
        change (mk_Timestamp y m d hh mm ss) with v
    | H : context [mk_Timestamp ?y ?m ?d ?hh ?mm ?ss] |- _ =>
        let v := eval vm_compute in (mk_Timestamp y m d hh mm ss) in
        change (mk_Timestamp y m d hh mm ss) with v in H
    end.

(** X10 - On a series in time order the cell binds the hourly means of
    three sets of entries, and the globals stay as they were.  Each end date
    is read as the midnight that opens that day, so the three sets are
    disjoint and an entry later on 30 September of 2006, 2007 or 2008 belongs
    to none of them: the last day of each period counts with its midnight
    value only. *)
Theorem periods_cell_last_day_left_out g :
  TimeSeries (df g) ->
  periods_cell g
  = (Ok (hourly_mean (included (mk_Timestamp 2005 10 1 0 0 0)
                               (mk_Timestamp 2006 9 30 0 0 0) (df g)),
         hourly_mean (included (mk_Timestamp 2006 10 1 0 0 0)
                               (mk_Timestamp 2007 9 30 0 0 0) (df g)),
         hourly_mean (included (mk_Timestamp 2007 10 1 0 0 0)
                               (mk_Timestamp 2008 9 30 0 0 0) (df g))),
     g)
  /\ (forall r,
        mk_Timestamp 2006 9 30 0 0 0 < row_time r < mk_Timestamp 2006 10 1 0 0 0
        \/ mk_Timestamp 2007 9 30 0 0 0 < row_time r < mk_Timestamp 2007 10 1 0 0 0
        \/ mk_Timestamp 2008 9 30 0 0 0 < row_time r < mk_Timestamp 2008 10 1 0 0 0 ->
        ~ In r (included (mk_Timestamp 2005 10 1 0 0 0)
                         (mk_Timestamp 2006 9 30 0 0 0) (df g))
        /\ ~ In r (included (mk_Timestamp 2006 10 1 0 0 0)
                            (mk_Timestamp 2007 9 30 0 0 0) (df g))
        /\ ~ In r (included (mk_Timestamp 2007 10 1 0 0 0)
                            (mk_Timestamp 2008 9 30 0 0 0) (df g)))
  /\ (forall r,
        In r (included (mk_Timestamp 2005 10 1 0 0 0)
                       (mk_Timestamp 2006 9 30 0 0 0) (df g)) ->
        ~ In r (included (mk_Timestamp 2006 10 1 0 0 0)
                         (mk_Timestamp 2007 9 30 0 0 0) (df g))
        /\ ~ In r (included (mk_Timestamp 2007 10 1 0 0 0)
                            (mk_Timestamp 2008 9 30 0 0 0) (df g)))
  /\ (forall r,
        In r (included (mk_Timestamp 2006 10 1 0 0 0)
                       (mk_Timestamp 2007 9 30 0 0 0) (df g)) ->
        ~ In r (included (mk_Timestamp 2007 10 1 0 0 0)
                         (mk_Timestamp 2008 9 30 0 0 0) (df g))).
Proof.
  intros Hs. split; [|split; [|split]].
  - unfold periods_cell.
    rewrite (bind_ok read_df _ g (df g) g eq_refl).
    rewrite (bind_ok _ _ g _ g
               (calcHourlyMean_sorted Timestamp_of_date (df g)
                  "2005-10-01" "2006-09-30" g _ _ Hs eq_refl eq_refl)).
    rewrite (bind_ok read_df _ g (df g) g eq_refl).
    rewrite (bind_ok _ _ g _ g
               (calcHourlyMean_sorted Timestamp_of_date (df g)
                  "2006-10-01" "2007-09-30" g _ _ Hs eq_refl eq_refl)).
    rewrite (bind_ok read_df _ g (df g) g eq_refl).
    rewrite (bind_ok _ _ g _ g
               (calcHourlyMean_sorted Timestamp_of_date (df g)
                  "2007-10-01" "2008-09-30" g _ _ Hs eq_refl eq_refl)).
    reflexivity.
  - intros r H. rewrite !included_In. eval_dates. repeat split; lia.
  - intros r H. rewrite !included_In in *. eval_dates. split; lia.
  - intros r H. rewrite !included_In in *. eval_dates. lia.
Qed.

(** The entry of 2006-09-30 13:00 is averaged in none of the three periods,
    the one of that day's midnight in the first. *)
Lemma periods_cell_last_day_left_out_witness :
  periods_cell
    (notebook [ mkRow (mk_Timestamp 2006 9 30 0 0 0) 1%float;
                mkRow (mk_Timestamp 2006 9 30 13 0 0) 500%float ])
  = (Ok ([(0, 1%float)], [], []),
     notebook [ mkRow (mk_Timestamp 2006 9 30 0 0 0) 1%float;
                mkRow (mk_Timestamp 2006 9 30 13 0 0) 500%float ]).
Proof.
  refine (eq_trans
            (proj1 (periods_cell_last_day_left_out
                      (notebook [ mkRow (mk_Timestamp 2006 9 30 0 0 0) 1%float;
                                  mkRow (mk_Timestamp 2006 9 30 13 0 0) 500%float ])
                      _))
            _).
  - reflexivity.
  - vm_compute. reflexivity.
Defined.

(** ** The files the notebook finds *)

Lemma prefix_spec sub :
  forall s, String.prefix sub s = true <-> exists q, s = (sub ++ q)%string.
Proof.
  induction sub as [|c sub IH]; intros s.
  - split; [intros _; exists s; reflexivity |].
    intros _. destruct s; reflexivity.
  - destruct s as [|c' s]; simpl.
    + split; [discriminate | intros [q Hq]; discriminate].
    + destruct (ascii_dec c c') as [E | N].
      * subst c'. rewrite IH. split; intros [q Hq]; exists q.
        -- rewrite Hq. reflexivity.
        -- inversion Hq. reflexivity.
      * split; [discriminate|]. intros [q Hq]. inversion Hq. congruence.
Qed.

Lemma contains_spec sub :
  forall s,
    contains sub s = true <-> exists p q, s = (p ++ sub ++ q)%string.
Proof.
  induction s as [|c s IH].
  - change (contains sub EmptyString)
      with (String.prefix sub EmptyString || false).
    rewrite orb_false_r, prefix_spec. split.
    + intros [q Hq]. exists EmptyString, q. exact Hq.
    + intros [p [q Hq]]. destruct p as [|c p]; [|discriminate].
      exists q. exact Hq.
  - change (contains sub (String c s))
      with (String.prefix sub (String c s) || contains sub s).
    rewrite orb_true_iff, prefix_spec, IH. split.
    + intros [[q Hq] | [p [q Hq]]].
      * exists EmptyString, q. exact Hq.
      * exists (String c p), q. rewrite Hq. reflexivity.
    + intros [p [q Hq]]. destruct p as [|c' p].
      * left. exists q. exact Hq.
      * right. exists p, q. inversion Hq. reflexivity.
Qed.

Lemma endswith_spec suffix :
  forall s, endswith s suffix = true <-> exists p, s = (p ++ suffix)%string.
Proof.
  induction s as [|c s IH].
  - change (endswith EmptyString suffix)
      with (String.eqb EmptyString suffix || false).
    rewrite orb_false_r, String.eqb_eq. split.
    + intros H. exists EmptyString. exact H.
    + intros [p Hp]. destruct p as [|c p]; [exact Hp | discriminate].
  - change (endswith (String c s) suffix)
      with (String.eqb (String c s) suffix || endswith s suffix).
    rewrite orb_true_iff, String.eqb_eq, IH. split.
    + intros [H | [p Hp]].
      * exists EmptyString. exact H.
      * exists (String c p). rewrite Hp. reflexivity.
    + intros [p Hp]. destruct p as [|c' p].
      * left. exact Hp.
      * right. exists p. inversion Hp. reflexivity.
Qed.

(** X11 - [dataFiles] holds exactly the listed names that end in [.nc] and
    in which [spinup] does not occur. *)
Theorem find_dataFiles_spec listing file :
  In file (find_dataFiles listing)
  <-> In file listing
      /\ (exists p, file = (p ++ ".nc")%string)
      /\ ~ (exists p q, file = (p ++ "spinup" ++ q)%string).
Proof.
  unfold find_dataFiles, is_result_file.
  rewrite filter_In, andb_true_iff, negb_true_iff, endswith_spec.
  rewrite <- contains_spec.
  destruct (contains "spinup" file); intuition congruence.
Qed.

(** X12 - [dataFiles[0]], the file the notebook opens, is the first listed
    name that passes the test, whatever comes after it in the listing; when
    no listed name passes, the subscript raises [IndexError]. *)
Theorem first_dataFile_spec listing :
  (first_dataFile (find_dataFiles listing) = Raise IndexError
   <-> Forall (fun file => is_result_file file = false) listing)
  /\ (forall file,
        first_dataFile (find_dataFiles listing) = Ok file
        <-> exists before after,
              listing = before ++ file :: after
              /\ Forall (fun f => is_result_file f = false) before
              /\ is_result_file file = true).
Proof.
  unfold find_dataFiles. induction listing as [|f listing [IH1 IH2]].
  - split.
    + split; [intros _; constructor | reflexivity].
    + intros file. split; [discriminate|].
      intros [before [after [H _]]]. destruct before; discriminate.
  - simpl filter. destruct (is_result_file f) eqn:Hf.
    + split.
      * simpl. split; [discriminate|].
        intros H. inversion H; subst. congruence.
      * intros file. simpl. split.
        -- intros H. inversion H; subst.
           exists [], listing. repeat split; [constructor | exact Hf].
        -- intros [before [after [Hl [Hb Hfile]]]].
           destruct before as [|b before].
           ++ inversion Hl. reflexivity.
           ++ inversion Hl; subst. inversion Hb; subst. congruence.
    + split.
      * rewrite IH1. split.
        -- intros H. constructor; assumption.
        -- intros H. inversion H; assumption.
      * intros file. rewrite IH2. split.
        -- intros [before [after [Hl [Hb Hfile]]]].
           exists (f :: before), after. rewrite Hl.
           repeat split; [constructor; assumption | exact Hfile].
        -- intros [before [after [Hl [Hb Hfile]]]].
           destruct before as [|b before].
           ++ inversion Hl; subst. congruence.
           ++ inversion Hl; subst. inversion Hb; subst.
              exists before, after. repeat split; assumption.
Qed.

Example dataFiles_of_listing :
  find_dataFiles listing_figure01
  = [ "vegImpactsRad_2005-2006_beersLaw_1.nc"%string;
      "vegImpactsRad_2005-2006_CLM2stream_1.nc"%string ]
  /\ first_dataFile (find_dataFiles listing_figure01)
     = Ok "vegImpactsRad_2005-2006_beersLaw_1.nc"%string
  /\ first_dataFile (find_dataFiles ["notes.txt"%string]) = Raise IndexError.
Proof. repeat split. Qed.

(** ** Nested intervals *)




(** ** Slicing between two labels of an index without repetitions *)

Lemma positions_unique x :
  forall l k i,
    NoDup l -> nth_error l i = Some x ->
    positions_from k x l = [(k + i)%nat].
Proof.
  induction l as [|t l IH]; intros k i Hnd Hi.
  - destruct i; discriminate.
  - inversion Hnd as [|? ? Ht Hl]; subst.
    destruct i as [|i]; simpl in Hi.
    + inversion Hi; subst. simpl. rewrite Z.eqb_refl.
      rewrite (positions_absent x l (S k) Ht), Nat.add_0_r. reflexivity.
    + assert (Hne : (t =? x) = false).
      { apply Z.eqb_neq. intros E. subst t. apply Ht.
        eapply nth_error_In. exact Hi. }
      simpl. rewrite Hne, (IH (S k) i Hl Hi). f_equal. lia.
Qed.

(** X14 - When no label occurs twice and both dates are labels of the
    index, the slice runs from the position of the start date up to and
    including the position of the end date, whatever timestamps the rows in
    between carry and in whatever order the index is: the call returns the
    hourly mean of these rows, and raises nothing. *)
Theorem calcHourlyMean_between_positions pd_Timestamp data s e g ds de i j :
  NoDup (index (df g)) ->
  pd_Timestamp s = Some ds ->
  pd_Timestamp e = Some de ->
  nth_error (index (df g)) i = Some ds ->
  nth_error (index (df g)) j = Some de ->
  calcHourlyMean pd_Timestamp data s e g
  = (Ok (hourly_mean (firstn (S j - i) (skipn i (df g)))), g).
Proof.
  intros Hnd Hds Hde Hi Hj.
  rewrite calcHourlyMean_run. unfold calcHourlyMean_result.
  rewrite Hds, Hde. unfold getitem_slice, get_slice_bound.
  rewrite (positions_unique ds _ 0 i Hnd Hi).
  rewrite (positions_unique de _ 0 j Hnd Hj).
  reflexivity.
Qed.

(** From 1 March to 1 January on the index 1 March, 1 January, 1 February:
    the first two rows are averaged. *)
Lemma calcHourlyMean_between_positions_witness :
  calcHourlyMean Timestamp_of_date [] "2006-03-01" "2006-01-01"
    (notebook series_unordered_days)
  = (Ok [(0, 20%float)], notebook series_unordered_days).
Proof.
  refine (eq_trans
            (calcHourlyMean_between_positions Timestamp_of_date []
               "2006-03-01" "2006-01-01" (notebook series_unordered_days)
               (mk_Timestamp 2006 3 1 0 0 0) (mk_Timestamp 2006 1 1 0 0 0)
               0%nat 1%nat _ _ _ _ _)
            _).
  - vm_compute. repeat constructor; simpl; intuition discriminate.
  - reflexivity.
  - reflexivity.
  - reflexivity.
  - reflexivity.
  - vm_compute. reflexivity.
Defined.

(* ================================================================= *)
(** * The order of the series *)

(** A series in time order whose timestamps are all different has one
    presentation only. *)
Lemma sorted_unique_permutation :
  forall d p : DataFrame,
    TimeSeries d -> TimeSeries p -> NoDup (index d) -> Permutation d p ->
    p = d.
Proof.
  unfold TimeSeries.
  induction d as [|a d IH]; intros p Hd Hp Hnd Hperm.
  - apply Permutation_nil in Hperm. exact Hperm.
  - destruct p as [|b p].
    { apply Permutation_sym, Permutation_nil in Hperm. discriminate. }
    assert (Hndp : NoDup (index (b :: p))).
    { eapply Permutation_NoDup; [|exact Hnd].
      unfold index. apply Permutation_map. exact Hperm. }
    change (index (a :: d)) with (row_time a :: index d) in *.
    change (index (b :: p)) with (row_time b :: index p) in *.
    destruct (monotonic_cons _ _ Hd) as [Hda Hd'].
    destruct (monotonic_cons _ _ Hp) as [Hpb Hp'].
    inversion Hnd as [|? ? Hna Hnd']; subst.
    inversion Hndp as [|? ? Hnb Hndp']; subst.
    assert (Hab : a = b).
    { assert (Ha : In a (b :: p))
        by (eapply Permutation_in; [exact Hperm | left; reflexivity]).
      assert (Hb : In b (a :: d))
        by (eapply Permutation_in;
            [apply Permutation_sym; exact Hperm | left; reflexivity]).
      destruct Ha as [Ha | Ha]; [symmetry; exact Ha|].
      destruct Hb as [Hb | Hb]; [exact Hb|].
      exfalso.
      assert (H1 : row_time b <= row_time a).
      { rewrite Forall_forall in Hpb. apply Hpb. unfold index.
        apply in_map. exact Ha. }
      assert (H2 : row_time a <= row_time b).
      { rewrite Forall_forall in Hda. apply Hda. unfold index.
        apply in_map. exact Hb. }
      apply Hna. replace (row_time a) with (row_time b) by lia.
      unfold index. apply in_map. exact Hb. }
    subst b. f_equal.
    apply IH; try assumption.
    eapply Permutation_cons_inv. exact Hperm.
Qed.

(** C7 (amended) - The result depends on the order of the series.  For a
    series in time order and a permutation of its entries: if the
    permutation is in time order too, both calls return, with the same
    buckets, each averaging the same values up to their order, and with the
    same result when no timestamp occurs twice (the two series are then the
    same list); if the permutation is in descending order the call on it
    returns the empty frame for [start < end]; if it is in neither order the
    call on it raises [KeyError] when a date is not one of the timestamps. *)
Theorem C7_result_depends_on_time_order pd_Timestamp data s e d p ds de :
  TimeSeries d ->
  Permutation d p ->
  pd_Timestamp s = Some ds ->
  pd_Timestamp e = Some de ->
  fst (calcHourlyMean pd_Timestamp data s e (notebook d))
  = Ok (hourly_mean (included ds de d))
  /\ (TimeSeries p ->
      fst (calcHourlyMean pd_Timestamp data s e (notebook p))
      = Ok (hourly_mean (included ds de p))
      /\ map fst (hourly_mean (included ds de p))
         = map fst (hourly_mean (included ds de d))
      /\ (forall h, Permutation (bucket_values h (included ds de d))
                                (bucket_values h (included ds de p)))
      /\ (NoDup (index d) ->
          fst (calcHourlyMean pd_Timestamp data s e (notebook p))
          = fst (calcHourlyMean pd_Timestamp data s e (notebook d))))
  /\ (is_monotonic_increasing (index p) = false ->
      is_monotonic_decreasing (index p) = true ->
      ds < de ->
      fst (calcHourlyMean pd_Timestamp data s e (notebook p)) = Ok [])
  /\ (is_monotonic_increasing (index p) = false ->
      is_monotonic_decreasing (index p) = false ->
      ~ In ds (index p) \/ ~ In de (index p) ->
      fst (calcHourlyMean pd_Timestamp data s e (notebook p)) = Raise KeyError).
Proof.
  intros Hs Hperm Hds Hde.
  assert (Hd : fst (calcHourlyMean pd_Timestamp data s e (notebook d))
               = Ok (hourly_mean (included ds de d))).
  { rewrite (calcHourlyMean_sorted _ data s e (notebook d) ds de Hs Hds Hde).
    reflexivity. }
  split; [exact Hd|]. split; [|split].
  - intros Hs'.
    assert (Hinc : Permutation (included ds de d) (included ds de p))
      by (apply filter_Permutation; exact Hperm).
    split.
    { rewrite (calcHourlyMean_sorted _ data s e (notebook p) ds de Hs' Hds Hde).
      reflexivity. }
    split.
    { rewrite !hourly_mean_keys. symmetry.
      apply hourly_keys_Permutation. exact Hinc. }
    split.
    { intros h. apply bucket_values_Permutation. exact Hinc. }
    intros Hnd.
    rewrite (sorted_unique_permutation d p Hs Hs' Hnd Hperm). reflexivity.
  - intros Hi Hdec Hlt.
    rewrite calcHourlyMean_run. simpl fst. unfold calcHourlyMean_result.
    rewrite Hds, Hde. simpl df.
    rewrite (getitem_slice_descending ds de p Hi Hdec).
    assert (Hnone : included de ds p = []).
    { apply included_none. apply Forall_forall. intros r _.
      unfold in_interval. apply andb_false_iff.
      destruct (Z_lt_le_dec (row_time r) de) as [H | H].
      - left. apply Z.leb_gt. exact H.
      - right. apply Z.leb_gt. lia. }
    rewrite Hnone. reflexivity.
  - intros Hi Hdec Habs.
    rewrite calcHourlyMean_run. simpl fst. unfold calcHourlyMean_result.
    rewrite Hds, Hde. simpl df.
    assert (Hsl : getitem_slice p ds de = Raise KeyError).
    { unfold getitem_slice.
      destruct (get_slice_bound (index p) ds SideLeft) as [lo|y] eqn:Hlo.
      - destruct Habs as [Hn | Hn].
        + rewrite (get_slice_bound_unordered _ _ _ Hi Hdec Hn) in Hlo.
          discriminate.
        + rewrite (get_slice_bound_unordered _ _ _ Hi Hdec Hn). reflexivity.
      - destruct (get_slice_bound_raises _ _ _ _ Hlo) as [-> _]. reflexivity. }
    rewrite Hsl. reflexivity.
Qed.

(** The three-entry scenario listed latest first: the call returns the empty
    frame. *)
Lemma C7_result_depends_on_time_order_witness :
  fst (calcHourlyMean Timestamp_of_date [] "2005-10-01" "2006-09-30"
         (notebook series_2006_2007))
  = Ok (hourly_mean (included (mk_Timestamp 2005 10 1 0 0 0)
                              (mk_Timestamp 2006 9 30 0 0 0)
                              series_2006_2007))
  /\ fst (calcHourlyMean Timestamp_of_date [] "2005-10-01" "2006-09-30"
            (notebook series_2006_2007_reversed))
     = Ok [].
Proof.
  destruct (C7_result_depends_on_time_order Timestamp_of_date []
              "2005-10-01" "2006-09-30"
              series_2006_2007 series_2006_2007_reversed
              (mk_Timestamp 2005 10 1 0 0 0) (mk_Timestamp 2006 9 30 0 0 0)
              eq_refl (Permutation_rev series_2006_2007) eq_refl eq_refl)
    as [Hd [_ [Hdesc _]]].
  split; [exact Hd|].
  apply Hdesc; reflexivity.
Defined.
